(** * iamtune: the IAM client and the role reader of [iamtune/aws.py]

    A shallow embedding of [AwsClient] and [IamReader].  Python values are a
    small inductive universe, exceptions a result constructor, the boto3
    client an arbitrary function of the events that happened so far, and
    every effect of the program (a remote call, a [time.sleep]) is appended
    to a trace, so that calls and waits can be counted.  Loops written
    [while True] and the recursion of the paginating generator take fuel. *)

From Stdlib Require Import String Ascii ZArith List Bool Lia.
Import ListNotations.
Open Scope string_scope.
Open Scope list_scope.

(** ** Python values and exceptions *)

#[warnings="-register-all"]
Inductive PyVal : Type :=
| VNone
| VInt (z : Z)
| VStr (s : string)
| VDateTime (t : Z)                      (* datetime.datetime, as boto3 gives CreateDate *)
| VList (l : list PyVal)
| VDict (d : list (string * PyVal)).     (* insertion-ordered, string keys *)

Definition kwargs := list (string * PyVal).

Inductive exn : Type :=
| ClientError (code : string)            (* e.response["Error"]["Code"] *)
| TypeError
| KeyError (k : string)
| IndexError
| ValueError
| AttributeError
| Exception_.                            (* a bare Exception() *)

Inductive Res (A : Type) : Type :=
| Ok (a : A)
| Raise (e : exn)
| Diverge.                               (* the fuel ran out *)
Arguments Ok {A} a.
Arguments Raise {A} e.
Arguments Diverge {A}.

(** ** The world: the remote service and the trace of effects *)

Inductive Event : Type :=
| EvCall (op : string) (kw : kwargs)     (* one request sent through the boto client *)
| EvSleep (secs : Z).                    (* one time.sleep(secs) *)

Inductive Outcome : Type :=
| Returns (v : PyVal)
| Raises (e : exn).

(** The boto client: what a request answers, given everything that happened
    before it. *)
Definition Boto := list Event -> string -> kwargs -> Outcome.

Record World : Type := mkWorld { boto : Boto; trace : list Event }.

Definition log (ev : Event) (w : World) : World :=
  mkWorld (boto w) (trace w ++ [ev]).

Definition M (A : Type) : Type := World -> Res A * World.

Definition ret {A} (a : A) : M A := fun w => (Ok a, w).
Definition raise {A} (e : exn) : M A := fun w => (Raise e, w).
Definition diverge {A} : M A := fun w => (Diverge, w).

Definition bind {A B} (m : M A) (k : A -> M B) : M B :=
  fun w =>
    match m w with
    | (Ok a, w') => k a w'
    | (Raise e, w') => (Raise e, w')
    | (Diverge, w') => (Diverge, w')
    end.

Declare Scope py_scope.
Delimit Scope py_scope with py.
Notation "x <- m ;; k" := (bind m (fun x => k))
  (at level 100, m at next level, right associativity) : py_scope.
Notation "m ;;; k" := (bind m (fun _ => k))
  (at level 100, right associativity) : py_scope.
Open Scope py_scope.

Definition time_sleep (secs : Z) : M unit :=
  fun w => (Ok tt, log (EvSleep secs) w).

(** ** Callables: a boto client method, possibly under functools.partial *)

Record callable : Type := Partial { func : string; keywords : kwargs }.

(** [self._boto_client.<op>] *)
Definition boto_method (op : string) : callable := Partial op [].

(** dict update: an existing key keeps its place and takes the new value, a
    new key goes last. *)
Fixpoint kw_set (k : string) (v : PyVal) (kw : kwargs) : kwargs :=
  match kw with
  | [] => [(k, v)]
  | (k', v') :: rest =>
      if String.eqb k k' then (k, v) :: rest else (k', v') :: kw_set k v rest
  end.

Definition kw_update (kw new : kwargs) : kwargs :=
  fold_left (fun acc kv => kw_set (fst kv) (snd kv) acc) new kw.

(** [functools.partial(fun, **new)]: a partial of a partial is flattened,
    its keywords being [{**fun.keywords, **new}]. *)
Definition partial (fun_ : callable) (new : kwargs) : callable :=
  Partial (func fun_) (kw_update (keywords fun_) new).

(** [fun()] *)
Definition call (fun_ : callable) : M PyVal :=
  fun w =>
    let w' := log (EvCall (func fun_) (keywords fun_)) w in
    match boto w (trace w) (func fun_) (keywords fun_) with
    | Returns v => (Ok v, w')
    | Raises e => (Raise e, w')
    end.

(** ** AwsClient: the retry wrapper *)

Definition LimitExceeded : exn := ClientError "LimitExceededException".

Definition is_rate_limit (e : exn) : bool :=
  match e with
  | ClientError code => String.eqb code "LimitExceededException"
  | _ => false
  end.

(** [_retried_call]: one unit of fuel per turn of the [while True]. *)
Fixpoint _retried_call (fuel : nat) (fun_ : callable) : M PyVal :=
  match fuel with
  | O => diverge
  | S fuel' =>
      fun w =>
        match call fun_ w with
        | (Ok v, w') => (Ok v, w')
        | (Raise (ClientError code), w') =>
            if String.eqb code "LimitExceededException"
            then (time_sleep 5 ;;; _retried_call fuel' fun_) w'
            else (Raise (ClientError code), w')
        | (Raise e, w') => (Raise e, w')
        | (Diverge, w') => (Diverge, w')
        end
  end.

(** [def _request(self, fun)]: the signature has no keyword parameter, so a
    call site that passes one ([kw] not empty) raises TypeError while Python
    binds the arguments, before the body runs. *)
Definition _request (fuel : nat) (fun_ : callable) (kw : kwargs) : M PyVal :=
  match kw with
  | [] => _retried_call fuel fun_
  | _ :: _ => raise TypeError
  end.

(** ** Counting effects in a trace *)

Definition is_call (ev : Event) : bool :=
  match ev with EvCall _ _ => true | EvSleep _ => false end.

Definition calls (tr : list Event) : nat := length (filter is_call tr).

Fixpoint sleeps (tr : list Event) : list Z :=
  match tr with
  | [] => []
  | EvSleep s :: rest => s :: sleeps rest
  | EvCall _ _ :: rest => sleeps rest
  end.

(** The events of [k] throttled attempts of [fun_]: each one a call followed
    by the backoff wait. *)
Fixpoint throttled (fun_ : callable) (k : nat) : list Event :=
  match k with
  | O => []
  | S k' => EvCall (func fun_) (keywords fun_) :: EvSleep 5 :: throttled fun_ k'
  end.

(** ** The Python primitives the program uses *)

Definition lift {A} (r : Res A) : M A := fun w => (r, w).

Fixpoint dict_lookup (d : list (string * PyVal)) (k : string) : option PyVal :=
  match d with
  | [] => None
  | (k', v) :: rest => if String.eqb k k' then Some v else dict_lookup rest k
  end.

(** [x["k"]] with a string literal as the subscript. *)
Definition getitem_str (x : PyVal) (k : string) : Res PyVal :=
  match x with
  | VDict d => match dict_lookup d k with Some v => Ok v | None => Raise (KeyError k) end
  | _ => Raise TypeError        (* list/str indices must be integers; the rest is not subscriptable *)
  end.

(** [x.get("k")] *)
Definition dict_get (x : PyVal) (k : string) : Res PyVal :=
  match x with
  | VDict d => match dict_lookup d k with Some v => Ok v | None => Ok VNone end
  | _ => Raise AttributeError
  end.

Fixpoint chars (s : string) : list PyVal :=
  match s with
  | EmptyString => []
  | String c rest => VStr (String c EmptyString) :: chars rest
  end.

(** What iterating over a value produces: the elements of a list, the keys
    of a dict, the characters of a string. *)
Definition py_iter (x : PyVal) : Res (list PyVal) :=
  match x with
  | VList l => Ok l
  | VDict d => Ok (map (fun kv => VStr (fst kv)) d)
  | VStr s => Ok (chars s)
  | _ => Raise TypeError
  end.

(** [list(x)] *)
Definition py_list (x : PyVal) : Res PyVal :=
  match py_iter x with
  | Ok l => Ok (VList l)
  | Raise e => Raise e
  | Diverge => Diverge
  end.

(** Truth value, as [if marker:] tests it. *)
Definition truthy (x : PyVal) : bool :=
  match x with
  | VNone => false
  | VInt z => negb (Z.eqb z 0)
  | VStr s => negb (String.eqb s "")
  | VDateTime _ => true
  | VList l => match l with [] => false | _ => true end
  | VDict d => match d with [] => false | _ => true end
  end.

(** [x == "s"] with a string literal. *)
Definition eq_str (x : PyVal) (s : string) : bool :=
  match x with VStr s' => String.eqb s' s | _ => false end.

(** [a < b].  The model orders integers, strings and datetimes, each with its
    own kind; every other pair is a TypeError (Python also orders lists,
    which no timestamp of this API is). *)
Definition py_lt (a b : PyVal) : Res bool :=
  match a, b with
  | VInt x, VInt y => Ok (Z.ltb x y)
  | VDateTime x, VDateTime y => Ok (Z.ltb x y)
  | VStr x, VStr y => Ok (match String.compare x y with Lt => true | _ => false end)
  | _, _ => Raise TypeError
  end.

Fixpoint max_from (cur : PyVal) (rest : list PyVal) : Res PyVal :=
  match rest with
  | [] => Ok cur
  | x :: rest' =>
      match py_lt cur x with
      | Ok true => max_from x rest'
      | Ok false => max_from cur rest'
      | Raise e => Raise e
      | Diverge => Diverge
      end
  end.

(** [max(x)] with one argument: the largest element of the iterable [x]. *)
Definition py_max (x : PyVal) : Res PyVal :=
  match py_iter x with
  | Ok [] => Raise ValueError
  | Ok (a :: rest) => max_from a rest
  | Raise e => Raise e
  | Diverge => Diverge
  end.

Fixpoint res_map {A B} (f : A -> Res B) (l : list A) : Res (list B) :=
  match l with
  | [] => Ok []
  | a :: rest =>
      match f a with
      | Ok b => match res_map f rest with
                | Ok bs => Ok (b :: bs)
                | Raise e => Raise e
                | Diverge => Diverge
                end
      | Raise e => Raise e
      | Diverge => Diverge
      end
  end.

(** Insertion into a list that is sorted in descending key order; [x] comes
    from the left of the elements already there and stays before the ones
    with an equal key. *)
Fixpoint insert_desc (x : PyVal * PyVal) (l : list (PyVal * PyVal))
  : Res (list (PyVal * PyVal)) :=
  match l with
  | [] => Ok [x]
  | y :: rest =>
      match py_lt (fst x) (fst y) with
      | Ok true => match insert_desc x rest with
                   | Ok rest' => Ok (y :: rest')
                   | Raise e => Raise e
                   | Diverge => Diverge
                   end
      | Ok false => Ok (x :: y :: rest)
      | Raise e => Raise e
      | Diverge => Diverge
      end
  end.

Fixpoint sort_desc (l : list (PyVal * PyVal)) : Res (list (PyVal * PyVal)) :=
  match l with
  | [] => Ok []
  | x :: rest =>
      match sort_desc rest with
      | Ok sorted_rest => insert_desc x sorted_rest
      | Raise e => Raise e
      | Diverge => Diverge
      end
  end.

(** [sorted(x, key=key, reverse=True)]: the keys of all the elements are
    computed first, then the elements are ordered by descending key, equal
    keys keeping their input order. *)
Definition sorted_reverse (x : PyVal) (key : PyVal -> Res PyVal) : Res (list PyVal) :=
  match py_iter x with
  | Ok items =>
      match res_map (fun it => match key it with
                               | Ok k => Ok (k, it)
                               | Raise e => Raise e
                               | Diverge => Diverge
                               end) items with
      | Ok keyed => match sort_desc keyed with
                    | Ok sorted_keyed => Ok (map snd sorted_keyed)
                    | Raise e => Raise e
                    | Diverge => Diverge
                    end
      | Raise e => Raise e
      | Diverge => Diverge
      end
  | Raise e => Raise e
  | Diverge => Diverge
  end.

(** ** Generators

    A generator object is a suspended computation: resuming it in a world
    runs the body up to its next [yield]. *)

Inductive Step (G : Type) : Type :=
| Yield (v : PyVal) (g : G)
| Stop
| Throw (e : exn)
| Starve.                                (* the fuel ran out *)
Arguments Yield {G} v g.
Arguments Stop {G}.
Arguments Throw {G} e.
Arguments Starve {G}.

#[warnings="-register-all"]
Inductive Gen : Type :=
| MkGen (resume : World -> Step Gen * World).

Definition resume (g : Gen) : World -> Step Gen * World :=
  match g with MkGen r => r end.

Definition gen_stop : Gen := MkGen (fun w => (Stop, w)).
Definition gen_starve : Gen := MkGen (fun w => (Starve, w)).
Definition gen_yield (v : PyVal) (k : Gen) : Gen := MkGen (fun w => (Yield v k, w)).

(** Statements of a generator body that run before its next [yield]. *)
Definition gen_do {A} (m : M A) (k : A -> Gen) : Gen :=
  MkGen (fun w =>
    match m w with
    | (Ok a, w') => resume (k a) w'
    | (Raise e, w') => (Throw e, w')
    | (Diverge, w') => (Starve, w')
    end).

(** [yield from g] followed by the statements [k]. *)
Fixpoint gen_seq (g : Gen) (k : Gen) : Gen :=
  match g with
  | MkGen r =>
      MkGen (fun w =>
        match r w with
        | (Yield v g', w') => (Yield v (gen_seq g' k), w')
        | (Stop, w') => resume k w'
        | (Throw e, w') => (Throw e, w')
        | (Starve, w') => (Starve, w')
        end)
  end.

Fixpoint gen_of_list (l : list PyVal) : Gen :=
  match l with
  | [] => gen_stop
  | v :: rest => gen_yield v (gen_of_list rest)
  end.

(** [for x in g: body(x)] inside a generator, [body] being generator code. *)
Fixpoint gen_for (g : Gen) (body : PyVal -> Gen) : Gen :=
  match g with
  | MkGen r =>
      MkGen (fun w =>
        match r w with
        | (Yield v g', w') => resume (gen_seq (body v) (gen_for g' body)) w'
        | (Stop, w') => (Stop, w')
        | (Throw e, w') => (Throw e, w')
        | (Starve, w') => (Starve, w')
        end)
  end.

(** [[body(x) for x in g]]: the comprehension drives the generator and runs
    [body] on each element as it arrives. *)
Fixpoint comprehension {A} (g : Gen) (body : PyVal -> M A) : M (list A) :=
  match g with
  | MkGen r =>
      fun w =>
        match r w with
        | (Yield v g', w') =>
            match body v w' with
            | (Ok a, w'') =>
                match comprehension g' body w'' with
                | (Ok rest, w3) => (Ok (a :: rest), w3)
                | (Raise e, w3) => (Raise e, w3)
                | (Diverge, w3) => (Diverge, w3)
                end
            | (Raise e, w'') => (Raise e, w'')
            | (Diverge, w'') => (Diverge, w'')
            end
        | (Stop, w') => (Ok [], w')
        | (Throw e, w') => (Raise e, w')
        | (Starve, w') => (Diverge, w')
        end
  end.

(** [list(g)] *)
Definition consume (g : Gen) : M (list PyVal) := comprehension g ret.

(** [yield from <expression>], the expression being a plain value. *)
Definition yield_from_value (m : M PyVal) : Gen :=
  gen_do (v <- m ;; lift (py_iter v)) gen_of_list.

(** ** AwsClient: pagination and the exposed operations *)

(** The body of [_paginated_request]; one unit of fuel per page, since the
    generator calls itself for the next one. *)
Fixpoint _paginated_request_body (fuel : nat) (fun_ : callable) : Gen :=
  match fuel with
  | O => gen_starve
  | S fuel' =>
      gen_do (_request fuel fun_ []) (fun response =>
      gen_yield response (
      gen_do (lift (dict_get response "Marker")) (fun marker =>
      if truthy marker
      then _paginated_request_body fuel' (partial fun_ [("Marker", marker)])
      else gen_stop)))
  end.

(** [def _paginated_request(self, fun)]: calling it binds the arguments (no
    keyword is accepted) and returns the generator object; nothing of the
    body runs before the first element is asked for. *)
Definition _paginated_request (fuel : nat) (fun_ : callable) (kw : kwargs) : M Gen :=
  match kw with
  | [] => ret (_paginated_request_body fuel fun_)
  | _ :: _ => raise TypeError
  end.

Definition list_roles (fuel : nat) : Gen :=
  gen_do (_paginated_request fuel (boto_method "list_roles") []) (fun pages =>
  gen_for pages (fun response =>
    yield_from_value (lift (getitem_str response "Roles")))).

Definition get_role (fuel : nat) (role_name : PyVal) : M PyVal :=
  response <- _request fuel (boto_method "get_role") [("RoleName", role_name)] ;;
  lift (getitem_str response "Role").

Definition list_inline_policies (fuel : nat) (role_name : PyVal) : Gen :=
  gen_do (_paginated_request fuel (boto_method "list_role_policies")
            [("RoleName", role_name)]) (fun pages =>
  gen_for pages (fun response =>
    yield_from_value (lift (getitem_str response "PolicyNames")))).

Definition list_attached_policies (fuel : nat) (role_name : PyVal) : Gen :=
  gen_do (r <- _request fuel (boto_method "list_attached_role_policies")
                 [("RoleName", role_name)] ;;
          lift (py_iter r)) (fun responses =>
  gen_for (gen_of_list responses) (fun response =>
    yield_from_value (lift (getitem_str response "AttachedPolicies")))).

Definition get_inline_policy_document (fuel : nat) (role_name policy_name : PyVal)
  : M PyVal :=
  response <- _request fuel (boto_method "get_role_policy")
                [("RoleName", role_name); ("PolicyName", policy_name)] ;;
  lift (getitem_str response "PolicyDocument").

Definition list_policy_versions (fuel : nat) (policy_arn : PyVal) : M PyVal :=
  response <- _request fuel (boto_method "list_policy_versions")
                [("PolicyArn", policy_arn)] ;;
  lift (getitem_str response "Versions").

Definition get_policy_document (fuel : nat) (policy_arn version_id : PyVal) : M PyVal :=
  response <- _request fuel (boto_method "get_policy_version")
                [("PolicyArn", policy_arn); ("VersionId", version_id)] ;;
  policy_version <- lift (getitem_str response "PolicyVersion") ;;
  lift (getitem_str policy_version "Document").

(** The results request of the access analysis, also its poll. *)
Definition details_request (job_id : PyVal) : callable :=
  partial (boto_method "get_service_last_accessed_details") [("JobId", job_id)].

(** The [while True] of [get_last_accessed_details]; one unit of fuel per
    turn.  After the [yield from] of the COMPLETED branch the loop goes on:
    the source has no [return] or [break] there. *)
Fixpoint poll_loop (fuel : nat) (job_id : PyVal) : Gen :=
  match fuel with
  | O => gen_starve
  | S fuel' =>
      gen_do (time_sleep 5 ;;;
              r <- _request fuel (details_request job_id) [] ;;
              response <- lift (py_list r) ;;
              status <- lift (getitem_str response "JobStatus") ;;
              (if eq_str status "FAILED" then raise Exception_ else
               lift (getitem_str response "JobStatus"))) (fun status =>
      if eq_str status "COMPLETED"
      then gen_seq
             (gen_do (_paginated_request fuel (details_request job_id) []) (fun g => g))
             (poll_loop fuel' job_id)
      else poll_loop fuel' job_id)
  end.

Definition get_last_accessed_details (fuel : nat) (arn : PyVal) : Gen :=
  gen_do (response <- _request fuel
                        (partial (boto_method "generate_service_last_accessed_details")
                           [("Arn", arn); ("Granularity", VStr "ACTION_LEVEL")]) [] ;;
          lift (getitem_str response "JobId")) (fun job_id =>
  poll_loop fuel job_id).

(** ** IamReader

    The reader holds the client it was constructed with and only calls its
    methods, so it is stated over any object with these methods. *)

Record Client : Type := mkClient {
  client_get_role : PyVal -> M PyVal;
  client_list_inline_policies : PyVal -> M Gen;
  client_list_attached_policies : PyVal -> M Gen;
  client_get_inline_policy_document : PyVal -> PyVal -> M PyVal;
  client_list_policy_versions : PyVal -> M PyVal;
  client_get_policy_document : PyVal -> PyVal -> M PyVal;
  client_get_last_accessed_details : PyVal -> M Gen
}.

(** The dict that [describe_role] returns, one field per key. *)
Record RoleProfile : Type := mkRoleProfile {
  RoleArn : PyVal;
  RoleName : PyVal;
  InlinePolicyDocuments : list PyVal;
  AttachedPolicyDocuments : list PyVal;
  LastAccessedDetails : Gen
}.

(** [[body(x) for x in l]] over a list. *)
Fixpoint for_list {A B} (l : list A) (body : A -> M B) : M (list B) :=
  match l with
  | [] => ret []
  | a :: rest => b <- body a ;; bs <- for_list rest body ;; ret (b :: bs)
  end.

(** [lambda it: max(it["CreateDate"])] *)
Definition version_key (it : PyVal) : Res PyVal :=
  match getitem_str it "CreateDate" with
  | Ok created => py_max created
  | Raise e => Raise e
  | Diverge => Diverge
  end.

Section IamReader.

Variable client : Client.

Definition _get_latest_version_id (policy_arn : PyVal) : M PyVal :=
  versions <- client_list_policy_versions client policy_arn ;;
  sorted_versions <- lift (sorted_reverse versions version_key) ;;
  match sorted_versions with
  | [] => raise IndexError
  | latest :: _ => lift (getitem_str latest "VersionId")
  end.

Definition describe_role (role_name : PyVal) : M RoleProfile :=
  role <- client_get_role client role_name ;;
  inline_policy_names <- client_list_inline_policies client role_name ;;
  inline_policy_documents <-
    comprehension inline_policy_names
      (fun pn => client_get_inline_policy_document client role_name pn) ;;
  attached_policies <- client_list_attached_policies client role_name ;;
  attached_policy_arns <-
    comprehension attached_policies
      (fun item => lift (getitem_str item "PolicyArn")) ;;
  attached_policy_arns_and_latest_version_ids <-
    for_list attached_policy_arns
      (fun arn => version_id <- _get_latest_version_id arn ;; ret (arn, version_id)) ;;
  attached_policy_documents <-
    for_list attached_policy_arns_and_latest_version_ids
      (fun args => client_get_policy_document client (fst args) (snd args)) ;;
  role_arn <- lift (getitem_str role "Arn") ;;
  details_arn <- lift (getitem_str role "Arn") ;;
  last_accessed_details <- client_get_last_accessed_details client details_arn ;;
  ret (mkRoleProfile role_arn role_name inline_policy_documents
         attached_policy_documents last_accessed_details).

End IamReader.

(** [IamReader(client=AwsClient(...))]: the three listing methods that are
    generator functions return their generator object without running it. *)
Definition AwsClient (fuel : nat) : Client :=
  mkClient
    (get_role fuel)
    (fun role_name => ret (list_inline_policies fuel role_name))
    (fun role_name => ret (list_attached_policies fuel role_name))
    (get_inline_policy_document fuel)
    (list_policy_versions fuel)
    (get_policy_document fuel)
    (fun arn => ret (get_last_accessed_details fuel arn)).

(** ** Vocabulary of the statements *)

(** The events a computation added to the trace. *)
Definition since (w w' : World) : list Event :=
  skipn (length (trace w)) (trace w').

(** The request that submits the job for [arn]. *)
Definition submit_request (arn : PyVal) : callable :=
  partial (boto_method "generate_service_last_accessed_details")
    [("Arn", arn); ("Granularity", VStr "ACTION_LEVEL")].

Definition ev (fun_ : callable) : Event := EvCall (func fun_) (keywords fun_).

(** The remote serves [pages] to [fun_], starting when the trace is [tr]:
    the request answers the first page; every page but the last carries a
    cursor (a Marker that [if marker:] takes as true) and the request bound
    to that cursor is served the remaining pages; the last page carries
    none. *)
Fixpoint serves (b : Boto) (tr : list Event) (fun_ : callable) (pages : list PyVal)
  : Prop :=
  match pages with
  | [] => False
  | page :: rest =>
      b tr (func fun_) (keywords fun_) = Returns page /\
      exists marker,
        dict_get page "Marker" = Ok marker /\
        match rest with
        | [] => truthy marker = false
        | _ :: _ =>
            truthy marker = true /\
            serves b (tr ++ [EvCall (func fun_) (keywords fun_)])
              (partial fun_ [("Marker", marker)]) rest
        end
  end.

(** The requests that fetch [pages], one per page: the first as [fun_] is,
    each later one bound to the cursor of the page before it. *)
Fixpoint page_calls (fun_ : callable) (pages : list PyVal) : list Event :=
  match pages with
  | [] => []
  | page :: rest =>
      EvCall (func fun_) (keywords fun_) ::
      match dict_get page "Marker" with
      | Ok marker => page_calls (partial fun_ [("Marker", marker)]) rest
      | _ => []
      end
  end.

(** Test doubles: remotes and clients with a fixed behaviour. *)
Module Doubles.

(** How many requests of [op] the trace holds. *)
Definition count_op (op : string) (tr : list Event) : nat :=
  length (filter (fun e => match e with
                           | EvCall o _ => String.eqb o op
                           | EvSleep _ => false
                           end) tr).

Definition record : PyVal :=
  VDict [("ServiceName", VStr "Amazon S3"); ("ServiceNamespace", VStr "s3")].

(** A remote that accepts the job and answers the n-th poll with the n-th
    of [statuses] (COMPLETED after the last), the report having one
    record and no cursor. *)
Definition analysis_remote (statuses : list string) : Boto :=
  fun tr op kw =>
    if String.eqb op "generate_service_last_accessed_details"
    then Returns (VDict [("JobId", VStr "job-1")])
    else if String.eqb op "get_service_last_accessed_details"
    then Returns (VDict [("JobStatus", VStr (nth (count_op op tr) statuses "COMPLETED"));
                         ("ServicesLastAccessed", VList [record])])
    else Raises (ClientError "AccessDenied").

(** A remote that refuses every request. *)
Definition denying_remote : Boto :=
  fun _ _ _ => Raises (ClientError "AccessDenied").

(** A remote that throttles the first [k] requests and then answers
    [v]. *)
Definition throttling_remote (k : nat) (v : PyVal) : Boto :=
  fun tr _ _ => if Nat.ltb (calls tr) k then Raises LimitExceeded else Returns v.

Definition role_page1 : PyVal :=
  VDict [("Roles", VList [VStr "Admin"; VStr "Deploy"]); ("Marker", VStr "c1")].
Definition role_page2 : PyVal :=
  VDict [("Roles", VList [VStr "Audit"])].

(** The role listing in two pages: without a cursor the first page, with
    the cursor c1 the second. *)
Definition two_page_remote : Boto :=
  fun _ op kw =>
    if String.eqb op "list_roles"
    then match dict_lookup kw "Marker" with
         | None => Returns role_page1
         | Some m => if eq_str m "c1" then Returns role_page2
                     else Raises (ClientError "InvalidInput")
         end
    else Raises (ClientError "AccessDenied").

Definition deploy_arn : PyVal := VStr "arn:aws:iam::123456789012:role/Deploy".
Definition deploy_role : PyVal :=
  VDict [("RoleName", VStr "Deploy"); ("Arn", deploy_arn)].

Definition version (id : string) (created : PyVal) : PyVal :=
  VDict [("VersionId", VStr id); ("CreateDate", created)].

Definition document_of (version_id : PyVal) : PyVal :=
  VDict [("Version", VStr "2012-10-17"); ("Id", version_id)].

(** A client that answers from fixed data and touches no remote: the role
    Deploy, no inline policy, the attached policies [attached], the
    versions [versions] for every policy, and [details] as its access
    analysis. *)
Definition client (attached : list PyVal) (versions : PyVal)
  (details : PyVal -> M Gen) : Client :=
  mkClient
    (fun _ => ret deploy_role)
    (fun _ => ret (gen_of_list []))
    (fun _ => ret (gen_of_list attached))
    (fun _ _ => ret VNone)
    (fun _ => ret versions)
    (fun _ version_id => ret (document_of version_id))
    details.

Definition p1 : PyVal := VDict [("PolicyName", VStr "p1"); ("PolicyArn", VStr "p1")].

(** The scenario of the role Deploy: one attached policy p1 with the
    versions v1 (created at 1) and v2 (created at 2), [stamp] saying how
    a creation time is represented, and an analysis of one record. *)
Definition deploy_client (stamp : Z -> PyVal) : Client :=
  client [p1] (VList [version "v1" (stamp 1%Z); version "v2" (stamp 2%Z)])
    (fun _ => ret (gen_of_list [record])).

(** A client whose access analysis is the generator of [AwsClient], the
    rest answering from fixed data; the role has no attached policy. *)
Definition lazy_client (fuel : nat) : Client :=
  client [] (VList []) (fun arn => ret (get_last_accessed_details fuel arn)).

End Doubles.

(** ** Vocabulary of the further statements *)

(** The caller asks [n] times for the next element of [g] and stops there:
    the elements it got (fewer if the generator ended first). *)
Fixpoint next_n (n : nat) (g : Gen) : M (list PyVal) :=
  match n with
  | O => ret []
  | S n' =>
      fun w =>
        match resume g w with
        | (Yield v g', w') =>
            match next_n n' g' w' with
            | (Ok rest, w'') => (Ok (v :: rest), w'')
            | (Raise e, w'') => (Raise e, w'')
            | (Diverge, w'') => (Diverge, w'')
            end
        | (Stop, w') => (Ok [], w')
        | (Throw e, w') => (Raise e, w')
        | (Starve, w') => (Diverge, w')
        end
  end.

(** The remote serves [pages] to [fun_], each of them with a cursor, and
    after the last of them the request bound to its cursor is in the
    situation [after]. *)
Fixpoint serves_prefix (b : Boto) (tr : list Event) (fun_ : callable)
  (pages : list PyVal) (after : list Event -> callable -> Prop) : Prop :=
  match pages with
  | [] => after tr fun_
  | page :: rest =>
      b tr (func fun_) (keywords fun_) = Returns page /\
      exists marker,
        dict_get page "Marker" = Ok marker /\
        truthy marker = true /\
        serves_prefix b (tr ++ [EvCall (func fun_) (keywords fun_)])
          (partial fun_ [("Marker", marker)]) rest after
  end.

(** The requests that fetch a prefix of pages, and the callable bound to
    the cursor of the last of them. *)
Fixpoint prefix_calls (fun_ : callable) (pages : list PyVal) : list Event :=
  match pages with
  | [] => []
  | page :: rest =>
      EvCall (func fun_) (keywords fun_) ::
      match dict_get page "Marker" with
      | Ok marker => prefix_calls (partial fun_ [("Marker", marker)]) rest
      | _ => []
      end
  end.

Fixpoint after_prefix (fun_ : callable) (pages : list PyVal) : callable :=
  match pages with
  | [] => fun_
  | page :: rest =>
      match dict_get page "Marker" with
      | Ok marker => after_prefix (partial fun_ [("Marker", marker)]) rest
      | _ => fun_
      end
  end.

(** The remote serves the pages to [fun_] as [serves] says, but throttles
    the request of each page [k] times before it answers it. *)
Fixpoint serves_throttled (b : Boto) (tr : list Event) (fun_ : callable)
  (pages : list (nat * PyVal)) : Prop :=
  match pages with
  | [] => False
  | (k, page) :: rest =>
      (forall i, i < k ->
         b (tr ++ throttled fun_ i) (func fun_) (keywords fun_) = Raises LimitExceeded) /\
      b (tr ++ throttled fun_ k) (func fun_) (keywords fun_) = Returns page /\
      exists marker,
        dict_get page "Marker" = Ok marker /\
        match rest with
        | [] => truthy marker = false
        | _ :: _ =>
            truthy marker = true /\
            serves_throttled b
              (tr ++ throttled fun_ k ++ [EvCall (func fun_) (keywords fun_)])
              (partial fun_ [("Marker", marker)]) rest
        end
  end.

Fixpoint throttled_page_calls (fun_ : callable) (pages : list (nat * PyVal))
  : list Event :=
  match pages with
  | [] => []
  | (k, page) :: rest =>
      throttled fun_ k ++ EvCall (func fun_) (keywords fun_) ::
      match dict_get page "Marker" with
      | Ok marker => throttled_page_calls (partial fun_ [("Marker", marker)]) rest
      | _ => []
      end
  end.

Fixpoint total_throttles (pages : list (nat * PyVal)) : nat :=
  match pages with
  | [] => 0
  | (k, _) :: rest => k + total_throttles rest
  end.

(** The cursor of a page, as [response.get("Marker")] reads it. *)
Definition marker_of (page : PyVal) : PyVal :=
  match dict_get page "Marker" with
  | Ok marker => marker
  | _ => VNone
  end.

(** What [yield from response[key]] yields for one page. *)
Definition page_items (key : string) (page : PyVal) : Res (list PyVal) :=
  match getitem_str page key with
  | Ok v => py_iter v
  | Raise e => Raise e
  | Diverge => Diverge
  end.



(** Further remotes and clients with a fixed behaviour. *)
Module Fixtures.

(** A remote that throttles the first [k] requests and then refuses. *)
Definition throttle_then_deny (k : nat) : Boto :=
  fun tr _ _ =>
    if Nat.ltb (calls tr) k then Raises LimitExceeded
    else Raises (ClientError "AccessDenied").

Definition always_throttling : Boto := fun _ _ _ => Raises LimitExceeded.

(** The two pages of the role listing, the first and the third request
    being throttled. *)
Definition two_page_throttled : Boto :=
  fun tr op kw =>
    if Nat.eqb (calls tr) 0 || Nat.eqb (calls tr) 2 then Raises LimitExceeded
    else Doubles.two_page_remote tr op kw.

(** The first page of the role listing, then a refusal. *)
Definition page_then_deny : Boto :=
  fun _ _ kw =>
    match dict_lookup kw "Marker" with
    | None => Returns Doubles.role_page1
    | Some _ => Raises (ClientError "AccessDenied")
    end.

(** The first page of the role listing, then a page without roles. *)
Definition page_without_roles : PyVal := VDict [("IsTruncated", VNone)].

Definition page_then_bad_page : Boto :=
  fun _ _ kw =>
    match dict_lookup kw "Marker" with
    | None => Returns Doubles.role_page1
    | Some _ => Returns page_without_roles
    end.

Definition page_a : PyVal := VDict [("Roles", VList [VStr "a"]); ("Marker", VStr "c1")].
Definition page_b : PyVal := VDict [("Roles", VList [VStr "b"]); ("Marker", VStr "c2")].
Definition page_c : PyVal := VDict [("Roles", VList [VStr "c"])].

(** Three pages, chained by the cursors c1 and c2. *)
Definition three_page_remote : Boto :=
  fun _ _ kw =>
    match dict_lookup kw "Marker" with
    | None => Returns page_a
    | Some m => if eq_str m "c1" then Returns page_b
                else if eq_str m "c2" then Returns page_c
                else Raises (ClientError "InvalidInput")
    end.

(** A remote that answers every request with the same page and cursor. *)
Definition stuck_remote : Boto := fun _ _ _ => Returns Doubles.role_page1.

(** A remote that answers every request with an empty dict. *)
Definition empty_remote : Boto := fun _ _ _ => Returns (VDict []).

(** A remote that accepts the job, throttles the first poll and answers the
    second with a completed job. *)
Definition throttled_poll_remote : Boto :=
  fun tr op kw =>
    if String.eqb op "get_service_last_accessed_details"
    then if Nat.eqb (Doubles.count_op op tr) 0 then Raises LimitExceeded
         else Returns (VDict [("JobStatus", VStr "COMPLETED")])
    else Returns (VDict [("JobId", VStr "job-1")]).


(** A client like [Doubles.client] whose role record has no Arn. *)
Definition arnless_client : Client :=
  mkClient
    (fun _ => ret (VDict [("RoleName", VStr "Deploy")]))
    (fun _ => ret (gen_of_list []))
    (fun _ => ret (gen_of_list []))
    (fun _ _ => ret VNone)
    (fun _ => ret (VList []))
    (fun _ version_id => ret (Doubles.document_of version_id))
    (fun _ => raise Exception_).

End Fixtures.

(** * Properties *)

Lemma since_app (b b' : Boto) (tr evs : list Event) :
  since (mkWorld b tr) (mkWorld b' (tr ++ evs)) = evs.
Proof.
  unfold since; simpl.
  induction tr as [|ev tr IH]; simpl; auto.
Qed.

Lemma calls_app (l1 l2 : list Event) : calls (l1 ++ l2) = calls l1 + calls l2.
Proof. unfold calls. now rewrite filter_app, length_app. Qed.

Lemma sleeps_app (l1 l2 : list Event) : sleeps (l1 ++ l2) = sleeps l1 ++ sleeps l2.
Proof.
  induction l1 as [|[op kw|s] l1 IH]; simpl; auto.
  now rewrite IH.
Qed.

Lemma calls_throttled (fun_ : callable) (k : nat) : calls (throttled fun_ k) = k.
Proof. induction k as [|k IH]; simpl; auto. unfold calls in *; simpl. now rewrite IH. Qed.

Lemma sleeps_throttled (fun_ : callable) (k : nat) :
  sleeps (throttled fun_ k) = repeat 5%Z k.
Proof. induction k as [|k IH]; simpl; auto. now rewrite IH. Qed.

(** ** The retry wrapper *)

Section Retry.

Variable fun_ : callable.
Variable b : Boto.

Lemma retried_call_throttled (K : nat) :
  forall (fuel : nat) (tr : list Event) (r : PyVal),
    (forall i, i < K ->
       b (tr ++ throttled fun_ i) (func fun_) (keywords fun_) = Raises LimitExceeded) ->
    b (tr ++ throttled fun_ K) (func fun_) (keywords fun_) = Returns r ->
    K < fuel ->
    _retried_call fuel fun_ (mkWorld b tr)
    = (Ok r, mkWorld b (tr ++ throttled fun_ K ++ [EvCall (func fun_) (keywords fun_)])).
Proof.
  induction K as [|K IH]; intros fuel tr r Hfail Hok Hfuel.
  - destruct fuel as [|fuel]; [lia|].
    simpl in *. rewrite app_nil_r in Hok.
    unfold call; simpl. rewrite Hok. reflexivity.
  - destruct fuel as [|fuel]; [lia|].
    assert (H0 : b tr (func fun_) (keywords fun_) = Raises LimitExceeded).
    { specialize (Hfail 0). simpl in Hfail. rewrite app_nil_r in Hfail.
      apply Hfail. lia. }
    cbn [_retried_call]. unfold call; cbn [boto trace]. rewrite H0.
    unfold LimitExceeded. rewrite String.eqb_refl.
    unfold bind, time_sleep, log; cbn [boto trace].
    rewrite (IH fuel ((tr ++ [EvCall (func fun_) (keywords fun_)]) ++ [EvSleep 5]) r).
    + f_equal. f_equal. cbn [throttled].
      rewrite <- !app_assoc. reflexivity.
    + intros i Hi. specialize (Hfail (S i)). cbn [throttled] in Hfail.
      rewrite <- !app_assoc. simpl. apply Hfail. lia.
    + cbn [throttled] in Hok. rewrite <- !app_assoc. simpl. exact Hok.
    + lia.
Qed.

End Retry.

(** C3. If the operation answers LimitExceededException to its first K
    attempts and then succeeds with [r], [_retried_call] (given more than K
    units of fuel, so the loop is not cut short) returns [r] and raises
    nothing; it has invoked the operation K+1 times and slept 5 before each
    of the K re-attempts, and nothing else. *)
Theorem retried_call_transparent
  (fun_ : callable) (K fuel : nat) (w : World) (r : PyVal) :
  (forall i, i < K ->
     boto w (trace w ++ throttled fun_ i) (func fun_) (keywords fun_)
     = Raises LimitExceeded) ->
  boto w (trace w ++ throttled fun_ K) (func fun_) (keywords fun_) = Returns r ->
  K < fuel ->
  exists w',
    _retried_call fuel fun_ w = (Ok r, w')
    /\ since w w' = throttled fun_ K ++ [EvCall (func fun_) (keywords fun_)]
    /\ calls (since w w') = K + 1
    /\ sleeps (since w w') = repeat 5%Z K.
Proof.
  intros Hfail Hok Hfuel. destruct w as [b tr]; simpl in *.
  eexists. split.
  - apply retried_call_throttled; eauto.
  - rewrite since_app. split; [reflexivity|].
    rewrite calls_app, sleeps_app, calls_throttled, sleeps_throttled.
    simpl. rewrite app_nil_r. split; [reflexivity | reflexivity].
Qed.

(** C4. If the first attempt of the operation raises an error that is not
    the rate-limit one, [_retried_call] raises that same error; it has
    invoked the operation once and has not slept. *)
Theorem retried_call_propagates
  (fun_ : callable) (fuel : nat) (w : World) (e : exn) :
  boto w (trace w) (func fun_) (keywords fun_) = Raises e ->
  is_rate_limit e = false ->
  0 < fuel ->
  exists w',
    _retried_call fuel fun_ w = (Raise e, w')
    /\ since w w' = [EvCall (func fun_) (keywords fun_)]
    /\ calls (since w w') = 1
    /\ sleeps (since w w') = [].
Proof.
  intros Hraise Hkind Hfuel. destruct fuel as [|fuel]; [lia|].
  destruct w as [b tr]; simpl in *.
  exists (mkWorld b (tr ++ [EvCall (func fun_) (keywords fun_)])).
  rewrite since_app. repeat split.
  unfold call, log; simpl. rewrite Hraise.
  destruct e; simpl in *; try reflexivity.
  rewrite Hkind. reflexivity.
Qed.

(** ** Pagination *)

(** How [list(g)] runs through the pieces a generator body is made of. *)
Lemma consume_gen_do {A} (m : M A) (k : A -> Gen) (w : World) :
  consume (gen_do m k) w
  = match m w with
    | (Ok a, w') => consume (k a) w'
    | (Raise e, w') => (Raise e, w')
    | (Diverge, w') => (Diverge, w')
    end.
Proof.
  unfold consume, gen_do. cbn [comprehension].
  destruct (m w) as [[a|e|] w']; try reflexivity.
  destruct (k a) as [r]. reflexivity.
Qed.

Lemma consume_gen_yield (v : PyVal) (k : Gen) (w : World) :
  consume (gen_yield v k) w
  = match consume k w with
    | (Ok rest, w') => (Ok (v :: rest), w')
    | (Raise e, w') => (Raise e, w')
    | (Diverge, w') => (Diverge, w')
    end.
Proof. reflexivity. Qed.

Lemma consume_gen_stop (w : World) : consume gen_stop w = (Ok [], w).
Proof. reflexivity. Qed.

Lemma paginated_body_complete (b : Boto) (pages : list PyVal) :
  forall (fuel : nat) (tr : list Event) (fun_ : callable),
    serves b tr fun_ pages ->
    length pages <= fuel ->
    consume (_paginated_request_body fuel fun_) (mkWorld b tr)
    = (Ok pages, mkWorld b (tr ++ page_calls fun_ pages))
    /\ calls (page_calls fun_ pages) = length pages
    /\ sleeps (page_calls fun_ pages) = [].
Proof.
  induction pages as [|page rest IH]; intros fuel tr fun_ Hserves Hfuel.
  - destruct Hserves.
  - destruct fuel as [|fuel]; [simpl in Hfuel; lia|].
    destruct Hserves as (Hpage & marker & Hmarker & Hrest).
    cbn [page_calls]. rewrite Hmarker.
    cbn [_paginated_request_body]. rewrite consume_gen_do.
    cbn [_request _retried_call]. unfold call; cbn [boto trace]. rewrite Hpage.
    rewrite consume_gen_yield, consume_gen_do.
    unfold lift. rewrite Hmarker. unfold log; cbn [boto trace].
    destruct rest as [|page' rest'].
    + rewrite Hrest, consume_gen_stop. repeat split; reflexivity.
    + destruct Hrest as (Htrue & Hrest). rewrite Htrue.
      destruct (IH fuel (tr ++ [EvCall (func fun_) (keywords fun_)])
                  (partial fun_ [("Marker", marker)]) Hrest)
        as (Hrun & Hcalls & Hsleeps).
      { simpl in Hfuel |- *. lia. }
      rewrite Hrun, <- app_assoc. repeat split.
      * unfold calls in *. cbn [filter is_call length]. now rewrite Hcalls.
      * cbn [sleeps]. exact Hsleeps.
Qed.

(** C2. When the remote serves N pages to [fun_], every page but the last
    with a cursor and the last without, [list(_paginated_request(fun))]
    (given at least N units of fuel) returns exactly these pages in their
    order; it has sent N requests, the one for each page once, and has not
    slept; it ends at the page without a cursor. *)
Theorem paginated_request_complete
  (fun_ : callable) (pages : list PyVal) (fuel : nat) (w : World) :
  serves (boto w) (trace w) fun_ pages ->
  length pages <= fuel ->
  exists w',
    (g <- _paginated_request fuel fun_ [] ;; consume g) w = (Ok pages, w')
    /\ since w w' = page_calls fun_ pages
    /\ calls (since w w') = length pages
    /\ sleeps (since w w') = [].
Proof.
  intros Hserves Hfuel. destruct w as [b tr]; cbn [boto trace] in *.
  destruct (paginated_body_complete b pages fuel tr fun_ Hserves Hfuel)
    as (Hrun & Hcalls & Hsleeps).
  exists (mkWorld b (tr ++ page_calls fun_ pages)).
  rewrite since_app. repeat split; auto.
Qed.

(** ** The access analysis *)

(** Whatever [r] is, [list(r)["JobStatus"]] raises TypeError: [list] gives
    a list (or refuses a value that is not iterable), and a list takes no
    string subscript.  What follows in the body never runs. *)
Lemma list_has_no_str_subscript {A} (r : PyVal) (key : string)
  (k : PyVal -> PyVal -> M A) (w : World) :
  (response <- lift (py_list r) ;;
   status <- lift (getitem_str response key) ;;
   k response status) w
  = (Raise TypeError, w).
Proof.
  unfold bind, lift, py_list.
  destruct r; reflexivity.
Qed.

(** Once the job is submitted and the first poll is answered, with any
    response at all, the generator raises TypeError: it has submitted,
    slept once and polled once, and has yielded nothing. *)
Lemma first_poll_raises
  (fuel : nat) (b : Boto) (tr : list Event) (arn submitted job_id polled : PyVal) :
  b tr (func (submit_request arn)) (keywords (submit_request arn)) = Returns submitted ->
  getitem_str submitted "JobId" = Ok job_id ->
  b (tr ++ [ev (submit_request arn); EvSleep 5])
    (func (details_request job_id)) (keywords (details_request job_id))
  = Returns polled ->
  resume (get_last_accessed_details (S fuel) arn) (mkWorld b tr)
  = (Throw TypeError,
     mkWorld b (tr ++ [ev (submit_request arn); EvSleep 5; ev (details_request job_id)])).
Proof.
  intros Hsubmit Hjob Hpoll. unfold ev in *.
  unfold get_last_accessed_details. fold (submit_request arn).
  cbn [gen_do resume]. unfold bind at 1.
  cbn [_request _retried_call]. unfold call at 1; cbn [boto trace].
  rewrite Hsubmit. unfold lift at 1. rewrite Hjob.
  cbn [poll_loop gen_do resume].
  unfold bind at 1. unfold time_sleep at 1. unfold bind at 1.
  cbn [_request _retried_call]. unfold call at 1. unfold log; cbn [boto trace].
  rewrite <- app_assoc. cbn [app]. rewrite Hpoll.
  rewrite list_has_no_str_subscript.
  rewrite <- app_assoc. reflexivity.
Qed.

Lemma consume_throw (g : Gen) (w w' : World) (e : exn) :
  resume g w = (Throw e, w') -> consume g w = (Raise e, w').
Proof.
  destruct g as [r]; cbn [resume]; intros H.
  unfold consume; cbn [comprehension]. now rewrite H.
Qed.

(** C1. A job whose polls answer RUNNING, RUNNING, COMPLETED: the first
    element asked of [get_last_accessed_details] raises TypeError.  The
    generator has submitted the job, slept once and polled once; the
    response of that poll is turned into a list and subscripted with
    "JobStatus".  No page of the report is fetched or yielded. *)
Theorem completed_job_raises_type_error (fuel : nat) :
  let w := mkWorld (Doubles.analysis_remote ["RUNNING"; "RUNNING"; "COMPLETED"]) [] in
  exists w',
    consume (get_last_accessed_details (S fuel) Doubles.deploy_arn) w
    = (Raise TypeError, w')
    /\ since w w' = [ev (submit_request Doubles.deploy_arn); EvSleep 5;
                     ev (details_request (VStr "job-1"))]
    /\ Doubles.count_op "get_service_last_accessed_details" (since w w') = 1
    /\ sleeps (since w w') = [5%Z].
Proof.
  intros w. eexists. split.
  - apply consume_throw.
    eapply (first_poll_raises fuel _ [] Doubles.deploy_arn _ (VStr "job-1"));
      reflexivity.
  - repeat split.
Qed.

(** C6. A job whose polls answer RUNNING, FAILED: the first element asked
    of [get_last_accessed_details] raises TypeError on the first poll, the
    one answered RUNNING, and not the bare exception of the FAILED branch;
    the generator has polled once, fetched no report and yielded
    nothing. *)
Theorem failed_job_raises_type_error (fuel : nat) :
  let w := mkWorld (Doubles.analysis_remote ["RUNNING"; "FAILED"]) [] in
  exists w',
    consume (get_last_accessed_details (S fuel) Doubles.deploy_arn) w
    = (Raise TypeError, w')
    /\ Raise (A := list PyVal) TypeError <> Raise Exception_
    /\ since w w' = [ev (submit_request Doubles.deploy_arn); EvSleep 5;
                     ev (details_request (VStr "job-1"))]
    /\ Doubles.count_op "get_service_last_accessed_details" (since w w') = 1.
Proof.
  intros w. eexists. split.
  - apply consume_throw.
    eapply (first_poll_raises fuel _ [] Doubles.deploy_arn _ (VStr "job-1"));
      reflexivity.
  - repeat split. discriminate.
Qed.

(** ** The exposed operations and their keyword arguments *)

Lemma request_with_keyword (fuel : nat) (fun_ : callable) (k : string) (v : PyVal)
  (kw : kwargs) (w : World) :
  _request fuel fun_ ((k, v) :: kw) w = (Raise TypeError, w).
Proof. reflexivity. Qed.

Lemma get_role_raises (fuel : nat) (role_name : PyVal) (w : World) :
  get_role fuel role_name w = (Raise TypeError, w).
Proof. reflexivity. Qed.

Lemma list_inline_policies_raises (fuel : nat) (role_name : PyVal) (w : World) :
  consume (list_inline_policies fuel role_name) w = (Raise TypeError, w).
Proof. reflexivity. Qed.

(** The role listing passes no keyword and is paginated: served in two
    pages, it yields the three roles in order with two requests. *)
Example list_roles_two_pages :
  consume (list_roles 2) (mkWorld Doubles.two_page_remote [])
  = (Ok [VStr "Admin"; VStr "Deploy"; VStr "Audit"],
     mkWorld Doubles.two_page_remote
       [EvCall "list_roles" []; EvCall "list_roles" [("Marker", VStr "c1")]]).
Proof. reflexivity. Qed.

(** C9. Listing the attached policies of a role and listing the versions of
    a policy go through [_request], not [_paginated_request], and pass it
    the identifier as a keyword it does not accept: whatever the remote
    holds, in one page or several, each raises TypeError before any request
    is sent and yields no item. *)
Theorem attached_and_versions_yield_nothing
  (fuel : nat) (role_name policy_arn : PyVal) (w : World) :
  consume (list_attached_policies fuel role_name) w = (Raise TypeError, w)
  /\ list_policy_versions fuel policy_arn w = (Raise TypeError, w).
Proof. split; reflexivity. Qed.

(** ** Latest-version selection *)

Lemma version_key_of_datetime (id : string) (t : Z) :
  version_key (Doubles.version id (VDateTime t)) = Raise TypeError.
Proof. reflexivity. Qed.

Lemma version_key_of_int (id : string) (t : Z) :
  version_key (Doubles.version id (VInt t)) = Raise TypeError.
Proof. reflexivity. Qed.

(** The sort raises what the key of the first element raises. *)
Lemma sorted_reverse_key_raises (v : PyVal) (rest : list PyVal)
  (key : PyVal -> Res PyVal) (e : exn) :
  key v = Raise e -> sorted_reverse (VList (v :: rest)) key = Raise e.
Proof.
  intros H. unfold sorted_reverse; cbn [py_iter res_map]. now rewrite H.
Qed.

(** C5. Versions whose creation times are datetimes (as boto3 gives them) or
    integers: in whatever order and however many, the selection raises
    TypeError, the sort key being [max] of the creation time.  Versions
    whose creation times are ISO strings: the key is the largest character
    of the string, and of a version of 2021-09-09 and one of 2022-01-01 the
    selection returns the older. *)
Theorem latest_version_selection_fails
  (id : string) (t : Z) (rest : list PyVal) (policy_arn : PyVal)
  (details : PyVal -> M Gen) (w : World) :
  _get_latest_version_id
    (Doubles.client [] (VList (Doubles.version id (VDateTime t) :: rest)) details)
    policy_arn w = (Raise TypeError, w)
  /\ _get_latest_version_id
       (Doubles.client [] (VList (Doubles.version id (VInt t) :: rest)) details)
       policy_arn w = (Raise TypeError, w)
  /\ _get_latest_version_id
       (Doubles.client []
          (VList [Doubles.version "v2" (VStr "2022-01-01");
                  Doubles.version "v1" (VStr "2021-09-09")]) details)
       policy_arn w = (Ok (VStr "v1"), w).
Proof.
  split; [|split].
  - unfold _get_latest_version_id, bind;
      cbn [Doubles.client client_list_policy_versions ret lift].
    now rewrite (sorted_reverse_key_raises _ _ _ TypeError (version_key_of_datetime id t)).
  - unfold _get_latest_version_id, bind;
      cbn [Doubles.client client_list_policy_versions ret lift].
    now rewrite (sorted_reverse_key_raises _ _ _ TypeError (version_key_of_int id t)).
  - reflexivity.
Qed.

(** ** Profile assembly *)

(** With the client of this repository, [describe_role] stops at its first
    statement: [get_role] passes RoleName to [_request] as a keyword.  No
    request is sent and nothing is slept, whatever the remote would
    answer. *)
Lemma describe_role_of_aws_client (fuel : nat) (role_name : PyVal) (w : World) :
  describe_role (AwsClient fuel) role_name w = (Raise TypeError, w).
Proof. reflexivity. Qed.

(** Over any client, an error raised while the role is fetched, or while
    the inline documents are read, is the outcome of [describe_role]: no
    statement of it catches anything. *)
Lemma describe_role_get_role_raises
  (client : Client) (role_name : PyVal) (e : exn) (w w' : World) :
  client_get_role client role_name w = (Raise e, w') ->
  describe_role client role_name w = (Raise e, w').
Proof.
  intros H. unfold describe_role. unfold bind at 1. now rewrite H.
Qed.

Lemma describe_role_inline_raises
  (client : Client) (role_name role : PyVal) (names : Gen) (e : exn)
  (w w1 w2 w' : World) :
  client_get_role client role_name w = (Ok role, w1) ->
  client_list_inline_policies client role_name w1 = (Ok names, w2) ->
  comprehension names
    (fun pn => client_get_inline_policy_document client role_name pn) w2
  = (Raise e, w') ->
  describe_role client role_name w = (Raise e, w').
Proof.
  intros Hrole Hnames Hdocs. unfold describe_role.
  unfold bind at 1. rewrite Hrole.
  unfold bind at 1. rewrite Hnames.
  unfold bind at 1. now rewrite Hdocs.
Qed.

(** C8. The role Deploy with no inline policy, the attached policy p1 with
    v1 created at 1 and v2 created at 2, and an analysis of one record:
    [describe_role] returns no profile.  Over the client of this repository
    it raises TypeError before any request; over a client that answers with
    exactly the data of the scenario it raises TypeError while it sorts the
    versions, the creation times being datetimes or integers. *)
Theorem describe_deploy_raises (fuel : nat) (w : World) :
  describe_role (AwsClient fuel) (VStr "Deploy") w = (Raise TypeError, w)
  /\ describe_role (Doubles.deploy_client VDateTime) (VStr "Deploy") w
     = (Raise TypeError, w)
  /\ describe_role (Doubles.deploy_client VInt) (VStr "Deploy") w
     = (Raise TypeError, w).
Proof.
  split; [|split].
  - apply describe_role_of_aws_client.
  - reflexivity.
  - reflexivity.
Qed.

(** C7. Over the client of this repository [describe_role] raises TypeError
    at its first step and never reaches a remote error.  Over a client
    whose first steps succeed and whose access analysis is the generator of
    this repository, a remote that refuses the submission of the job, or a
    job that fails, does not stop [describe_role]: it returns a profile,
    having sent no request, and the error is raised only when the caller
    reads the LastAccessedDetails of that profile. *)
Theorem analysis_failure_is_deferred (fuel : nat) :
  (forall role_name w,
     describe_role (AwsClient (S fuel)) role_name w = (Raise TypeError, w))
  /\ (let w := mkWorld Doubles.denying_remote [] in
      exists profile,
        describe_role (Doubles.lazy_client (S fuel)) (VStr "Deploy") w = (Ok profile, w)
        /\ consume (LastAccessedDetails profile) w
           = (Raise (ClientError "AccessDenied"),
              mkWorld Doubles.denying_remote [ev (submit_request Doubles.deploy_arn)]))
  /\ (let w := mkWorld (Doubles.analysis_remote ["FAILED"]) [] in
      exists profile w',
        describe_role (Doubles.lazy_client (S fuel)) (VStr "Deploy") w = (Ok profile, w)
        /\ consume (LastAccessedDetails profile) w = (Raise TypeError, w')).
Proof.
  split; [|split].
  - intros. apply describe_role_of_aws_client.
  - intros w. eexists. split; [reflexivity|]. reflexivity.
  - intros w. eexists. eexists. split; [reflexivity|].
    cbn [LastAccessedDetails]. apply consume_throw.
    eapply (first_poll_raises fuel _ [] Doubles.deploy_arn _ (VStr "job-1"));
      reflexivity.
Qed.

(** ** A policy without versions *)

Lemma for_list_raises_at {A B} (body : A -> M B) (e : exn) (a : A) (post : list A) :
  forall (pre : list A) (bs : list B) (w w' w'' : World),
    for_list pre body w = (Ok bs, w') ->
    body a w' = (Raise e, w'') ->
    for_list (pre ++ a :: post) body w = (Raise e, w'').
Proof.
  induction pre as [|x pre IH]; intros bs w w' w'' Hpre Ha.
  - cbn in Hpre. inversion Hpre; subst.
    cbn [app for_list]. unfold bind. now rewrite Ha.
  - cbn [app for_list] in *. unfold bind in *.
    destruct (body x w) as [[b|e'|] w1]; try discriminate.
    destruct (for_list pre body w1) as [[bs'|e'|] w2] eqn:E; try discriminate.
    cbn in Hpre. inversion Hpre; subst.
    now rewrite (IH bs' w1 w' w'' E Ha).
Qed.

Lemma latest_version_of_none (client : Client) (policy_arn : PyVal) (w w' : World) :
  client_list_policy_versions client policy_arn w = (Ok (VList []), w') ->
  _get_latest_version_id client policy_arn w = (Raise IndexError, w').
Proof.
  intros H. unfold _get_latest_version_id, bind. rewrite H. reflexivity.
Qed.

(** C10. Over any client: when [describe_role] has come to an attached
    policy of which the client lists no version (the role, the inline
    documents and the policies before it having been read), the selection
    of the latest version raises IndexError, taking element 0 of the empty
    sorted list, and [describe_role] raises that IndexError. *)
Theorem no_version_raises_index_error
  (client : Client) (role_name role : PyVal)
  (inline_policy_names attached_policies : Gen)
  (inline_policy_documents : list PyVal)
  (resolved pending : list PyVal) (policy_arn : PyVal)
  (resolved_ids : list (PyVal * PyVal))
  (w w1 w2 w3 w4 w5 w6 w7 : World) :
  client_get_role client role_name w = (Ok role, w1) ->
  client_list_inline_policies client role_name w1 = (Ok inline_policy_names, w2) ->
  comprehension inline_policy_names
    (fun pn => client_get_inline_policy_document client role_name pn) w2
  = (Ok inline_policy_documents, w3) ->
  client_list_attached_policies client role_name w3 = (Ok attached_policies, w4) ->
  comprehension attached_policies (fun item => lift (getitem_str item "PolicyArn")) w4
  = (Ok (resolved ++ policy_arn :: pending), w5) ->
  for_list resolved
    (fun arn => version_id <- _get_latest_version_id client arn ;; ret (arn, version_id)) w5
  = (Ok resolved_ids, w6) ->
  client_list_policy_versions client policy_arn w6 = (Ok (VList []), w7) ->
  _get_latest_version_id client policy_arn w6 = (Raise IndexError, w7)
  /\ describe_role client role_name w = (Raise IndexError, w7).
Proof.
  intros Hrole Hnames Hdocs Hattached Harns Hresolved Hversions.
  pose proof (latest_version_of_none client policy_arn w6 w7 Hversions) as Hlatest.
  split; [exact Hlatest|].
  unfold describe_role.
  unfold bind at 1. rewrite Hrole.
  unfold bind at 1. rewrite Hnames.
  unfold bind at 1. rewrite Hdocs.
  unfold bind at 1. rewrite Hattached.
  unfold bind at 1. rewrite Harns.
  unfold bind at 1.
  rewrite (for_list_raises_at _ IndexError policy_arn pending resolved resolved_ids w5 w6 w7
             Hresolved).
  - reflexivity.
  - unfold bind. now rewrite Hlatest.
Qed.

(** ** Instances of the theorems on the test doubles *)

Lemma retried_call_transparent_witness :
  exists w',
    _retried_call 3 (boto_method "get_role")
      (mkWorld (Doubles.throttling_remote 2 Doubles.deploy_role) [])
    = (Ok Doubles.deploy_role, w')
    /\ since (mkWorld (Doubles.throttling_remote 2 Doubles.deploy_role) []) w'
       = throttled (boto_method "get_role") 2 ++ [EvCall "get_role" []]
    /\ calls (since (mkWorld (Doubles.throttling_remote 2 Doubles.deploy_role) []) w')
       = 2 + 1
    /\ sleeps (since (mkWorld (Doubles.throttling_remote 2 Doubles.deploy_role) []) w')
       = repeat 5%Z 2.
Proof.
  apply (retried_call_transparent (boto_method "get_role") 2 3
           (mkWorld (Doubles.throttling_remote 2 Doubles.deploy_role) [])
           Doubles.deploy_role).
  - intros i Hi. destruct i as [|[|i]]; [reflexivity | reflexivity | lia].
  - reflexivity.
  - lia.
Defined.

Lemma retried_call_propagates_witness :
  exists w',
    _retried_call 1 (boto_method "get_role") (mkWorld Doubles.denying_remote [])
    = (Raise (ClientError "AccessDenied"), w')
    /\ since (mkWorld Doubles.denying_remote []) w' = [EvCall "get_role" []]
    /\ calls (since (mkWorld Doubles.denying_remote []) w') = 1
    /\ sleeps (since (mkWorld Doubles.denying_remote []) w') = [].
Proof.
  apply (retried_call_propagates (boto_method "get_role") 1
           (mkWorld Doubles.denying_remote []) (ClientError "AccessDenied")).
  - reflexivity.
  - reflexivity.
  - lia.
Defined.

Lemma paginated_request_complete_witness :
  exists w',
    (g <- _paginated_request 2 (boto_method "list_roles") [] ;; consume g)
      (mkWorld Doubles.two_page_remote [])
    = (Ok [Doubles.role_page1; Doubles.role_page2], w')
    /\ since (mkWorld Doubles.two_page_remote []) w'
       = page_calls (boto_method "list_roles") [Doubles.role_page1; Doubles.role_page2]
    /\ calls (since (mkWorld Doubles.two_page_remote []) w') = 2
    /\ sleeps (since (mkWorld Doubles.two_page_remote []) w') = [].
Proof.
  apply (paginated_request_complete (boto_method "list_roles")
           [Doubles.role_page1; Doubles.role_page2] 2
           (mkWorld Doubles.two_page_remote [])).
  - cbn. split; [reflexivity|]. exists (VStr "c1").
    split; [reflexivity|]. split; [reflexivity|].
    split; [reflexivity|]. exists VNone. split; reflexivity.
  - cbn. lia.
Defined.

Lemma no_version_raises_index_error_witness :
  let client := Doubles.client [Doubles.p1] (VList []) (fun _ => ret gen_stop) in
  let w := mkWorld Doubles.denying_remote [] in
  _get_latest_version_id client (VStr "p1") w = (Raise IndexError, w)
  /\ describe_role client (VStr "Deploy") w = (Raise IndexError, w).
Proof.
  intros client w.
  apply (no_version_raises_index_error client (VStr "Deploy") Doubles.deploy_role
           (gen_of_list []) (gen_of_list [Doubles.p1]) [] [] [] (VStr "p1") []
           w w w w w w w w); reflexivity.
Defined.

(** * Further properties of the client *)

(** ** The retry loop, for every remote *)

Section RetryLoop.

Variable fun_ : callable.
Variable b : Boto.

(** Throttled attempts only cost fuel: after K of them the loop is where it
    started, K turns later. *)
Lemma retried_call_skips_throttled (K : nat) :
  forall (fuel : nat) (tr : list Event),
    (forall i, i < K ->
       b (tr ++ throttled fun_ i) (func fun_) (keywords fun_) = Raises LimitExceeded) ->
    _retried_call (K + fuel) fun_ (mkWorld b tr)
    = _retried_call fuel fun_ (mkWorld b (tr ++ throttled fun_ K)).
Proof.
  induction K as [|K IH]; intros fuel tr Hfail.
  - cbn. now rewrite app_nil_r.
  - assert (H0 : b tr (func fun_) (keywords fun_) = Raises LimitExceeded).
    { specialize (Hfail 0). cbn in Hfail. rewrite app_nil_r in Hfail.
      apply Hfail. lia. }
    cbn [Nat.add _retried_call]. unfold call; cbn [boto trace]. rewrite H0.
    unfold LimitExceeded. rewrite String.eqb_refl.
    unfold bind, time_sleep, log; cbn [boto trace].
    rewrite (IH fuel ((tr ++ [EvCall (func fun_) (keywords fun_)]) ++ [EvSleep 5])).
    + cbn [throttled]. rewrite <- !app_assoc. reflexivity.
    + intros i Hi. specialize (Hfail (S i)). cbn [throttled] in Hfail.
      rewrite <- !app_assoc. cbn [app]. apply Hfail. lia.
Qed.

(** Whenever the loop ends, it ends on the attempt it reports: the events
    it added are some k throttled attempts and then that attempt. *)
Lemma retried_call_outcome :
  forall (fuel : nat) (tr : list Event) (r : Res PyVal) (w' : World),
    _retried_call fuel fun_ (mkWorld b tr) = (r, w') ->
    r <> Diverge ->
    exists k,
      k < fuel
      /\ w' = mkWorld b (tr ++ throttled fun_ k ++ [EvCall (func fun_) (keywords fun_)])
      /\ match r with
         | Ok v => b (tr ++ throttled fun_ k) (func fun_) (keywords fun_) = Returns v
         | Raise e => b (tr ++ throttled fun_ k) (func fun_) (keywords fun_) = Raises e
                      /\ is_rate_limit e = false
         | Diverge => False
         end.
Proof.
  induction fuel as [|fuel IH]; intros tr r w' Hrun Hr.
  - cbn in Hrun. inversion Hrun; subst. now destruct Hr.
  - cbn [_retried_call] in Hrun. unfold call in Hrun; cbn [boto trace] in Hrun.
    destruct (b tr (func fun_) (keywords fun_)) as [v|e] eqn:Hb.
    + inversion Hrun; subst. exists 0. cbn [throttled app].
      rewrite app_nil_r. repeat split; [lia | exact Hb].
    + assert (Hstop : is_rate_limit e = false ->
                      (r, w') = (Raise e, log (EvCall (func fun_) (keywords fun_))
                                            (mkWorld b tr)) ->
                      exists k, k < S fuel
                        /\ w' = mkWorld b (tr ++ throttled fun_ k
                                             ++ [EvCall (func fun_) (keywords fun_)])
                        /\ match r with
                           | Ok v => b (tr ++ throttled fun_ k) (func fun_) (keywords fun_)
                                     = Returns v
                           | Raise e' => b (tr ++ throttled fun_ k) (func fun_)
                                           (keywords fun_) = Raises e'
                                         /\ is_rate_limit e' = false
                           | Diverge => False
                           end).
      { intros Hk Heq. inversion Heq; subst. exists 0. cbn [throttled app].
        rewrite app_nil_r. repeat split; [lia | exact Hb | exact Hk]. }
      destruct e as [code| | | | | |]; try (apply Hstop; [reflexivity | now rewrite <- Hrun]).
      destruct (String.eqb code "LimitExceededException") eqn:Hcode.
      * apply String.eqb_eq in Hcode; subst code.
        unfold bind, time_sleep, log in Hrun; cbn [boto trace] in Hrun.
        destruct (IH _ _ _ Hrun Hr) as (k & Hk & Hw & Hout).
        exists (S k). cbn [throttled]. split; [lia|]. split.
        -- rewrite Hw. rewrite <- !app_assoc. reflexivity.
        -- rewrite <- !app_assoc in Hout. exact Hout.
      * apply Hstop; [cbn; exact Hcode | now rewrite <- Hrun].
Qed.

End RetryLoop.

(** X1. Whatever the remote does, an error that [_retried_call] raises is
    never the rate-limit one; and when it returns or raises, what it added
    to the trace is k throttled attempts (a request and a sleep of 5 each)
    followed by one request, the one whose outcome it reports. *)
Theorem retried_call_never_surfaces_rate_limit
  (fun_ : callable) (fuel : nat) (w w' : World) (r : Res PyVal) :
  _retried_call fuel fun_ w = (r, w') ->
  r <> Diverge ->
  r <> Raise LimitExceeded
  /\ exists k,
       k < fuel
       /\ boto w' = boto w
       /\ since w w' = throttled fun_ k ++ [EvCall (func fun_) (keywords fun_)]
       /\ sleeps (since w w') = repeat 5%Z k.
Proof.
  intros Hrun Hr. destruct w as [b tr].
  destruct (retried_call_outcome fun_ b fuel tr r w' Hrun Hr) as (k & Hk & Hw & Hout).
  split.
  - intros ->. destruct Hout as [_ Hkind]. discriminate Hkind.
  - exists k. subst w'. cbn [boto]. rewrite since_app.
    rewrite sleeps_app, sleeps_throttled. cbn. rewrite app_nil_r. auto.
Qed.

(** X2. There is no cap on the attempts: against a remote that throttles
    the first n attempts, n turns of the loop neither return nor raise; the
    loop has sent n requests and slept 5 after each of them. *)
Theorem retried_call_has_no_attempt_cap
  (fun_ : callable) (n : nat) (w : World) :
  (forall i, i < n ->
     boto w (trace w ++ throttled fun_ i) (func fun_) (keywords fun_)
     = Raises LimitExceeded) ->
  exists w',
    _retried_call n fun_ w = (Diverge, w')
    /\ since w w' = throttled fun_ n
    /\ calls (since w w') = n
    /\ sleeps (since w w') = repeat 5%Z n.
Proof.
  intros Hfail. destruct w as [b tr]; cbn [boto trace] in *.
  exists (mkWorld b (tr ++ throttled fun_ n)).
  rewrite since_app, calls_throttled, sleeps_throttled. repeat split.
  replace n with (n + 0) at 1 by lia.
  now rewrite (retried_call_skips_throttled fun_ b n 0 tr Hfail).
Qed.

(** X3. K throttled attempts followed by an error that is not the
    rate-limit one: [_retried_call] raises that error, after K+1 requests
    and K sleeps of 5. *)
Theorem retried_call_error_after_throttles
  (fun_ : callable) (K fuel : nat) (w : World) (e : exn) :
  (forall i, i < K ->
     boto w (trace w ++ throttled fun_ i) (func fun_) (keywords fun_)
     = Raises LimitExceeded) ->
  boto w (trace w ++ throttled fun_ K) (func fun_) (keywords fun_) = Raises e ->
  is_rate_limit e = false ->
  K < fuel ->
  exists w',
    _retried_call fuel fun_ w = (Raise e, w')
    /\ since w w' = throttled fun_ K ++ [EvCall (func fun_) (keywords fun_)]
    /\ calls (since w w') = K + 1
    /\ sleeps (since w w') = repeat 5%Z K.
Proof.
  intros Hfail Herr Hkind Hfuel. destruct w as [b tr]; cbn [boto trace] in *.
  exists (mkWorld b (tr ++ throttled fun_ K ++ [EvCall (func fun_) (keywords fun_)])).
  rewrite since_app, calls_app, sleeps_app, calls_throttled, sleeps_throttled.
  cbn. rewrite app_nil_r. repeat split.
  replace fuel with (K + S (fuel - K - 1)) by lia.
  rewrite (retried_call_skips_throttled fun_ b K _ tr Hfail).
  cbn [_retried_call]. unfold call, log; cbn [boto trace]. rewrite Herr.
  rewrite <- app_assoc.
  destruct e; cbn in Hkind |- *; try reflexivity.
  now rewrite Hkind.
Qed.

(** ** Pagination under throttling, read in part, and interrupted *)

Lemma paginated_body_throttled (b : Boto) (pages : list (nat * PyVal)) :
  forall (fuel : nat) (tr : list Event) (fun_ : callable),
    serves_throttled b tr fun_ pages ->
    length pages + total_throttles pages <= fuel ->
    consume (_paginated_request_body fuel fun_) (mkWorld b tr)
    = (Ok (map snd pages), mkWorld b (tr ++ throttled_page_calls fun_ pages))
    /\ calls (throttled_page_calls fun_ pages) = length pages + total_throttles pages
    /\ sleeps (throttled_page_calls fun_ pages) = repeat 5%Z (total_throttles pages).
Proof.
  induction pages as [|[k page] rest IH]; intros fuel tr fun_ Hserves Hfuel.
  - destruct Hserves.
  - destruct fuel as [|fuel]; [cbn in Hfuel; lia|].
    destruct Hserves as (Hthrottle & Hpage & marker & Hmarker & Hrest).
    cbn [throttled_page_calls total_throttles map snd length]. rewrite Hmarker.
    cbn [_paginated_request_body]. rewrite consume_gen_do.
    cbn [_request].
    cbn [length total_throttles] in Hfuel.
    replace (S fuel) with (k + S (fuel - k)) by lia.
    rewrite (retried_call_skips_throttled fun_ b k _ tr Hthrottle).
    cbn [_retried_call]. unfold call; cbn [boto trace]. rewrite Hpage.
    rewrite consume_gen_yield, consume_gen_do.
    unfold lift. rewrite Hmarker. unfold log; cbn [boto trace].
    rewrite calls_app, sleeps_app, calls_throttled, sleeps_throttled.
    destruct rest as [|page' rest'].
    + rewrite Hrest, consume_gen_stop. cbn [map total_throttles length].
      rewrite <- app_assoc. cbn [app]. repeat split.
      * unfold calls; cbn. lia.
      * cbn. now rewrite Nat.add_0_r, app_nil_r.
    + destruct Hrest as (Htrue & Hrest). rewrite Htrue.
      replace (k + S (fuel - k)) with (S fuel) by lia.
      destruct (IH fuel _ _ Hrest) as (Hrun & Hcalls & Hsleeps).
      { cbn [length total_throttles] in Hfuel |- *. lia. }
      rewrite <- (app_assoc tr). rewrite Hrun.
      rewrite <- !app_assoc. cbn [app]. repeat split.
      * unfold calls in *. cbn [filter is_call length]. rewrite Hcalls.
        cbn [length]. lia.
      * cbn [sleeps]. rewrite Hsleeps. now rewrite repeat_app.
Qed.

(** X4. A throttle in the middle of a pagination delays only the page it
    hits: when the remote throttles the request of each page some number of
    times before answering it, [list(_paginated_request(fun))] still
    returns all the pages in order; it has sent one request per page and
    one per throttle, and slept 5 once per throttle. *)
Theorem paginated_request_survives_throttling
  (fun_ : callable) (pages : list (nat * PyVal)) (fuel : nat) (w : World) :
  serves_throttled (boto w) (trace w) fun_ pages ->
  length pages + total_throttles pages <= fuel ->
  exists w',
    (g <- _paginated_request fuel fun_ [] ;; consume g) w = (Ok (map snd pages), w')
    /\ since w w' = throttled_page_calls fun_ pages
    /\ calls (since w w') = length pages + total_throttles pages
    /\ sleeps (since w w') = repeat 5%Z (total_throttles pages).
Proof.
  intros Hserves Hfuel. destruct w as [b tr]; cbn [boto trace] in *.
  destruct (paginated_body_throttled b pages fuel tr fun_ Hserves Hfuel)
    as (Hrun & Hcalls & Hsleeps).
  exists (mkWorld b (tr ++ throttled_page_calls fun_ pages)).
  rewrite since_app. repeat split; auto.
Qed.

Lemma paginated_body_first_page (b : Boto) (fuel : nat) (tr : list Event)
  (fun_ : callable) (page marker : PyVal) :
  b tr (func fun_) (keywords fun_) = Returns page ->
  dict_get page "Marker" = Ok marker ->
  truthy marker = true ->
  exists g',
    resume (_paginated_request_body (S fuel) fun_) (mkWorld b tr)
    = (Yield page g', mkWorld b (tr ++ [EvCall (func fun_) (keywords fun_)]))
    /\ forall w, resume g' w
                 = resume (_paginated_request_body fuel
                             (partial fun_ [("Marker", marker)])) w.
Proof.
  intros Hpage Hmarker Htrue. eexists. split.
  - cbn [_paginated_request_body gen_do resume gen_yield _request _retried_call].
    unfold call, log; cbn [boto trace]. rewrite Hpage. reflexivity.
  - intros w. cbn [gen_do resume]. unfold lift. rewrite Hmarker, Htrue. reflexivity.
Qed.

Lemma next_n_resume (n : nat) (g g' : Gen) (w : World) :
  resume g w = resume g' w -> next_n n g w = next_n n g' w.
Proof.
  intros H. destruct n as [|n]; [reflexivity|]. cbn [next_n]. now rewrite H.
Qed.

Lemma consume_resume (g g' : Gen) (w : World) :
  resume g w = resume g' w -> consume g w = consume g' w.
Proof.
  intros H. destruct g as [r], g' as [r']. unfold consume; cbn [comprehension].
  cbn [resume] in H. now rewrite H.
Qed.

Lemma paginated_body_prefix (b : Boto) (after : list Event -> callable -> Prop)
  (pages : list PyVal) :
  forall (fuel : nat) (tr : list Event) (fun_ : callable),
    serves_prefix b tr fun_ pages after ->
    length pages <= fuel ->
    next_n (length pages) (_paginated_request_body fuel fun_) (mkWorld b tr)
    = (Ok pages, mkWorld b (tr ++ prefix_calls fun_ pages))
    /\ calls (prefix_calls fun_ pages) = length pages
    /\ sleeps (prefix_calls fun_ pages) = []
    /\ after (tr ++ prefix_calls fun_ pages) (after_prefix fun_ pages).
Proof.
  induction pages as [|page rest IH]; intros fuel tr fun_ Hserves Hfuel.
  - cbn in *. rewrite app_nil_r. repeat split. exact Hserves.
  - destruct fuel as [|fuel]; [cbn in Hfuel; lia|].
    destruct Hserves as (Hpage & marker & Hmarker & Htrue & Hrest).
    destruct (paginated_body_first_page b fuel tr fun_ page marker Hpage Hmarker Htrue)
      as (g' & Hfirst & Hnext).
    destruct (IH fuel _ _ Hrest) as (Hrun & Hcalls & Hsleeps & Hafter).
    { cbn in Hfuel. lia. }
    cbn [length next_n prefix_calls after_prefix]. rewrite Hfirst, Hmarker.
    rewrite (next_n_resume _ _ _ _ (Hnext _)), Hrun.
    rewrite <- app_assoc. cbn [app]. repeat split.
    + unfold calls in *. cbn [filter is_call length]. now rewrite Hcalls.
    + exact Hsleeps.
    + rewrite <- app_assoc in Hafter. exact Hafter.
Qed.

(** X5. The pages are fetched as they are asked for: a caller that takes
    n pages from [_paginated_request(fun)], each of them carrying a cursor,
    has made the client send exactly n requests; the page that the last
    cursor points to is not requested. *)
Theorem paginated_request_is_lazy
  (fun_ : callable) (pages : list PyVal) (fuel : nat) (w : World) :
  serves_prefix (boto w) (trace w) fun_ pages (fun _ _ => True) ->
  length pages <= fuel ->
  exists w',
    (g <- _paginated_request fuel fun_ [] ;; next_n (length pages) g) w = (Ok pages, w')
    /\ since w w' = prefix_calls fun_ pages
    /\ calls (since w w') = length pages.
Proof.
  intros Hserves Hfuel. destruct w as [b tr]; cbn [boto trace] in *.
  destruct (paginated_body_prefix b _ pages fuel tr fun_ Hserves Hfuel)
    as (Hrun & Hcalls & _).
  exists (mkWorld b (tr ++ prefix_calls fun_ pages)).
  rewrite since_app. repeat split; auto.
Qed.

Lemma paginated_body_interrupted (b : Boto) (e : exn) (pages : list PyVal) :
  forall (fuel : nat) (tr : list Event) (fun_ : callable),
    serves_prefix b tr fun_ pages
      (fun tr' fun' => b tr' (func fun') (keywords fun') = Raises e) ->
    is_rate_limit e = false ->
    length pages < fuel ->
    consume (_paginated_request_body fuel fun_) (mkWorld b tr)
    = (Raise e, mkWorld b (tr ++ prefix_calls fun_ pages
                              ++ [ev (after_prefix fun_ pages)])).
Proof.
  induction pages as [|page rest IH]; intros fuel tr fun_ Hserves Hkind Hfuel.
  - destruct fuel as [|fuel]; [lia|]. cbn in Hserves.
    cbn [_paginated_request_body prefix_calls after_prefix app].
    rewrite consume_gen_do. cbn [_request _retried_call].
    unfold call, log, ev; cbn [boto trace]. rewrite Hserves.
    destruct e; cbn in Hkind |- *; try reflexivity. now rewrite Hkind.
  - destruct fuel as [|fuel]; [lia|].
    destruct Hserves as (Hpage & marker & Hmarker & Htrue & Hrest).
    destruct (paginated_body_first_page b fuel tr fun_ page marker Hpage Hmarker Htrue)
      as (g' & Hfirst & Hnext).
    assert (Hrun := IH fuel _ _ Hrest Hkind ltac:(cbn in Hfuel; lia)).
    destruct (_paginated_request_body (S fuel) fun_) as [r] eqn:Eg.
    cbn [resume] in Hfirst. unfold consume at 1. cbn [comprehension].
    rewrite Hfirst. unfold ret at 1.
    fold (consume g'). rewrite (consume_resume _ _ _ (Hnext _)), Hrun.
    cbn [prefix_calls after_prefix]. rewrite Hmarker.
    rewrite <- app_assoc. reflexivity.
Qed.

(** X6. An error in the middle of a pagination: when n pages are served,
    each with a cursor, and the request for the page after them raises an
    error that is not the rate-limit one, [list(_paginated_request(fun))]
    raises that error and returns none of the n pages; it has sent n+1
    requests and has not slept. *)
Theorem paginated_request_error_midway
  (fun_ : callable) (pages : list PyVal) (e : exn) (fuel : nat) (w : World) :
  serves_prefix (boto w) (trace w) fun_ pages
    (fun tr' fun' => boto w tr' (func fun') (keywords fun') = Raises e) ->
  is_rate_limit e = false ->
  length pages < fuel ->
  exists w',
    (g <- _paginated_request fuel fun_ [] ;; consume g) w = (Raise e, w')
    /\ since w w' = prefix_calls fun_ pages ++ [ev (after_prefix fun_ pages)]
    /\ calls (since w w') = length pages + 1
    /\ sleeps (since w w') = [].
Proof.
  intros Hserves Hkind Hfuel. destruct w as [b tr]; cbn [boto trace] in *.
  pose proof (paginated_body_interrupted b e pages fuel tr fun_ Hserves Hkind Hfuel)
    as Hrun.
  destruct (paginated_body_prefix b _ pages fuel tr fun_ Hserves ltac:(lia))
    as (_ & Hcalls & Hsleeps & _).
  eexists. split; [exact Hrun|].
  rewrite since_app, calls_app, sleeps_app, Hcalls, Hsleeps. repeat split.
Qed.

(** Binding a keyword twice keeps the second value only. *)
Lemma kw_set_kw_set (k : string) (v1 v2 : PyVal) (kw : kwargs) :
  kw_set k v2 (kw_set k v1 kw) = kw_set k v2 kw.
Proof.
  induction kw as [|[k' v'] kw IH]; cbn.
  - now rewrite String.eqb_refl.
  - destruct (String.eqb k k') eqn:E; cbn.
    + now rewrite String.eqb_refl.
    + now rewrite E, IH.
Qed.

Lemma page_calls_closed_form (b : Boto) (op : string) (kw0 : kwargs) (pages : list PyVal) :
  forall (tr : list Event) (kw : kwargs) (m0 : PyVal),
    kw = kw0 \/ kw = kw_set "Marker" m0 kw0 ->
    serves b tr (Partial op kw) pages ->
    page_calls (Partial op kw) pages
    = EvCall op kw
      :: map (fun page => EvCall op (kw_set "Marker" (marker_of page) kw0))
           (removelast pages).
Proof.
  induction pages as [|page rest IH]; intros tr kw m0 Hkw Hserves.
  - destruct Hserves.
  - destruct Hserves as (Hpage & marker & Hmarker & Hrest).
    cbn [page_calls func keywords]. rewrite Hmarker. f_equal.
    destruct rest as [|page' rest']; [reflexivity|].
    destruct Hrest as (_ & Hrest).
    assert (Hnext : partial (Partial op kw) [("Marker", marker)]
                    = Partial op (kw_set "Marker" marker kw0)).
    { unfold partial, kw_update; cbn [fold_left fst snd func keywords].
      destruct Hkw as [-> | ->]; [reflexivity | now rewrite kw_set_kw_set]. }
    rewrite Hnext in Hrest |- *.
    rewrite (IH _ _ marker (or_intror eq_refl) Hrest).
    change (removelast (page :: page' :: rest')) with (page :: removelast (page' :: rest')).
    cbn [map]. unfold marker_of at 2. now rewrite Hmarker.
Qed.

(** X7. The requests of a pagination carry one cursor each: the first is
    [fun] as it is, and the request for every later page has the keywords
    of [fun] with Marker set to the cursor of the page before it (the
    cursors of earlier pages are replaced, not accumulated). *)
Theorem paginated_request_cursors
  (fun_ : callable) (pages : list PyVal) (fuel : nat) (w : World) :
  serves (boto w) (trace w) fun_ pages ->
  length pages <= fuel ->
  exists w',
    (g <- _paginated_request fuel fun_ [] ;; consume g) w = (Ok pages, w')
    /\ since w w'
       = EvCall (func fun_) (keywords fun_)
         :: map (fun page => EvCall (func fun_)
                               (kw_set "Marker" (marker_of page) (keywords fun_)))
              (removelast pages).
Proof.
  intros Hserves Hfuel. destruct w as [b tr]; cbn [boto trace] in *.
  destruct (paginated_body_complete b pages fuel tr fun_ Hserves Hfuel) as (Hrun & _).
  exists (mkWorld b (tr ++ page_calls fun_ pages)).
  rewrite since_app. split; [exact Hrun|].
  destruct fun_ as [op kw]. cbn [func keywords].
  apply (page_calls_closed_form b op kw pages tr kw VNone); auto.
Qed.

(** ** The role listing *)

Lemma consume_unfold (g : Gen) (w : World) :
  consume g w
  = match resume g w with
    | (Yield v g', w') =>
        match consume g' w' with
        | (Ok rest, w'') => (Ok (v :: rest), w'')
        | (Raise e, w'') => (Raise e, w'')
        | (Diverge, w'') => (Diverge, w'')
        end
    | (Stop, w') => (Ok [], w')
    | (Throw e, w') => (Raise e, w')
    | (Starve, w') => (Diverge, w')
    end.
Proof. destruct g as [r]. reflexivity. Qed.

Lemma resume_gen_seq (g k : Gen) (w : World) :
  resume (gen_seq g k) w
  = match resume g w with
    | (Yield v g', w') => (Yield v (gen_seq g' k), w')
    | (Stop, w') => resume k w'
    | (Throw e, w') => (Throw e, w')
    | (Starve, w') => (Starve, w')
    end.
Proof. destruct g as [r]. reflexivity. Qed.

Lemma resume_gen_for (g : Gen) (body : PyVal -> Gen) (w : World) :
  resume (gen_for g body) w
  = match resume g w with
    | (Yield v g', w') => resume (gen_seq (body v) (gen_for g' body)) w'
    | (Stop, w') => (Stop, w')
    | (Throw e, w') => (Throw e, w')
    | (Starve, w') => (Starve, w')
    end.
Proof. destruct g as [r]. reflexivity. Qed.

Lemma consume_seq_of_list (items : list PyVal) (k : Gen) (w : World) :
  consume (gen_seq (gen_of_list items) k) w
  = match consume k w with
    | (Ok rest, w') => (Ok (items ++ rest), w')
    | (Raise e, w') => (Raise e, w')
    | (Diverge, w') => (Diverge, w')
    end.
Proof.
  induction items as [|v items IH].
  - cbn [gen_of_list app]. rewrite (consume_resume (gen_seq gen_stop k) k w).
    + now destruct (consume k w) as [[rest|e|] w'].
    + now rewrite resume_gen_seq.
  - rewrite consume_unfold, resume_gen_seq. cbn [gen_of_list gen_yield resume].
    rewrite IH. now destruct (consume k w) as [[rest|e|] w'].
Qed.

(** What [yield from response[key]] runs before it yields. *)
Lemma yield_from_items (key : string) (response : PyVal) (w : World) :
  (v <- lift (getitem_str response key) ;; lift (py_iter v)) w
  = (page_items key response, w).
Proof.
  unfold bind, lift, page_items. now destruct (getitem_str response key).
Qed.

Lemma resume_yield_from (key : string) (response : PyVal) (k : Gen) (w : World) :
  resume (gen_seq (yield_from_value (lift (getitem_str response key))) k) w
  = match page_items key response with
    | Ok items => resume (gen_seq (gen_of_list items) k) w
    | Raise e => (Throw e, w)
    | Diverge => (Starve, w)
    end.
Proof.
  rewrite resume_gen_seq. unfold yield_from_value. cbn [gen_do resume].
  rewrite yield_from_items.
  destruct (page_items key response) as [items|e|]; try reflexivity.
  now rewrite resume_gen_seq.
Qed.

(** The first element of the page sequence: one request, and the cursor is
    looked at only when the caller comes back for more. *)
Lemma paginated_body_head (b : Boto) (fuel : nat) (tr : list Event)
  (fun_ : callable) (page : PyVal) :
  b tr (func fun_) (keywords fun_) = Returns page ->
  exists g',
    resume (_paginated_request_body (S fuel) fun_) (mkWorld b tr)
    = (Yield page g', mkWorld b (tr ++ [EvCall (func fun_) (keywords fun_)]))
    /\ forall marker w,
         dict_get page "Marker" = Ok marker ->
         resume g' w
         = resume (if truthy marker
                   then _paginated_request_body fuel (partial fun_ [("Marker", marker)])
                   else gen_stop) w.
Proof.
  intros Hpage. eexists. split.
  - cbn [_paginated_request_body gen_do resume gen_yield _request _retried_call].
    unfold call, log; cbn [boto trace]. rewrite Hpage. reflexivity.
  - intros marker w Hmarker. cbn [gen_do resume]. unfold lift. now rewrite Hmarker.
Qed.

Lemma consume_resume_at (g g' : Gen) (w w' : World) :
  resume g w = resume g' w' -> consume g w = consume g' w'.
Proof. intros H. now rewrite (consume_unfold g), (consume_unfold g'), H. Qed.

Lemma gen_for_resume (g g' : Gen) (body : PyVal -> Gen) (w : World) :
  resume g w = resume g' w ->
  consume (gen_for g body) w = consume (gen_for g' body) w.
Proof.
  intros H. apply consume_resume. now rewrite !resume_gen_for, H.
Qed.

Lemma pages_flattened (b : Boto) (key : string) (pages : list PyVal) :
  forall (fuel : nat) (tr : list Event) (fun_ : callable) (itemss : list (list PyVal)),
    serves b tr fun_ pages ->
    res_map (page_items key) pages = Ok itemss ->
    length pages <= fuel ->
    consume (gen_for (_paginated_request_body fuel fun_)
               (fun response => yield_from_value (lift (getitem_str response key))))
      (mkWorld b tr)
    = (Ok (concat itemss), mkWorld b (tr ++ page_calls fun_ pages)).
Proof.
  induction pages as [|page rest IH]; intros fuel tr fun_ itemss Hserves Hitems Hfuel.
  - destruct Hserves.
  - destruct fuel as [|fuel]; [cbn in Hfuel; lia|].
    destruct Hserves as (Hpage & marker & Hmarker & Hrest).
    cbn [res_map] in Hitems.
    destruct (page_items key page) as [items|e|] eqn:Hpi; try discriminate.
    destruct (res_map (page_items key) rest) as [itemss'|e|] eqn:Hrm; try discriminate.
    inversion Hitems; subst itemss. clear Hitems.
    destruct (paginated_body_head b fuel tr fun_ page Hpage) as (g' & Hfirst & Hnext).
    rewrite (consume_resume_at _
               (gen_seq (gen_of_list items)
                  (gen_for g' (fun response =>
                     yield_from_value (lift (getitem_str response key)))))
               _ (mkWorld b (tr ++ [EvCall (func fun_) (keywords fun_)]))).
    2:{ now rewrite resume_gen_for, Hfirst, resume_yield_from, Hpi. }
    rewrite consume_seq_of_list.
    rewrite (gen_for_resume _ _ _ _ (Hnext marker _ Hmarker)).
    cbn [page_calls concat]. rewrite Hmarker.
    destruct rest as [|page' rest'].
    + rewrite Hrest. cbn in Hrm. inversion Hrm; subst. reflexivity.
    + destruct Hrest as (Htrue & Hrest). rewrite Htrue.
      rewrite (IH fuel _ _ itemss' Hrest eq_refl ltac:(cbn in Hfuel |- *; lia)).
      now rewrite <- app_assoc.
Qed.

(** X8. [list_roles] flattens the pages: when the remote serves N pages to
    the role listing, the operation yields the Roles of the first page,
    then those of the second, and so on to the last, in their order; it has
    sent one request per page. *)
Theorem list_roles_yields_all_roles
  (pages : list PyVal) (itemss : list (list PyVal)) (fuel : nat) (w : World) :
  serves (boto w) (trace w) (boto_method "list_roles") pages ->
  res_map (page_items "Roles") pages = Ok itemss ->
  length pages <= fuel ->
  exists w',
    consume (list_roles fuel) w = (Ok (concat itemss), w')
    /\ since w w' = page_calls (boto_method "list_roles") pages
    /\ calls (since w w') = length pages.
Proof.
  intros Hserves Hitems Hfuel. destruct w as [b tr]; cbn [boto trace] in *.
  exists (mkWorld b (tr ++ page_calls (boto_method "list_roles") pages)).
  rewrite since_app.
  destruct (paginated_body_complete b pages fuel tr _ Hserves Hfuel) as (_ & Hcalls & _).
  repeat split; auto.
  unfold list_roles. rewrite consume_gen_do. cbn [_paginated_request ret].
  now apply pages_flattened.
Qed.

Lemma pages_flattened_until (b : Boto) (key : string) (bad : PyVal) (e : exn)
  (pages : list PyVal) :
  forall (fuel : nat) (tr : list Event) (fun_ : callable) (itemss : list (list PyVal)),
    serves_prefix b tr fun_ pages
      (fun tr' fun' => b tr' (func fun') (keywords fun') = Returns bad) ->
    res_map (page_items key) pages = Ok itemss ->
    page_items key bad = Raise e ->
    length pages < fuel ->
    consume (gen_for (_paginated_request_body fuel fun_)
               (fun response => yield_from_value (lift (getitem_str response key))))
      (mkWorld b tr)
    = (Raise e, mkWorld b (tr ++ prefix_calls fun_ pages
                              ++ [ev (after_prefix fun_ pages)])).
Proof.
  induction pages as [|page rest IH];
    intros fuel tr fun_ itemss Hserves Hitems Hbad Hfuel.
  - destruct fuel as [|fuel]; [lia|]. cbn in Hserves.
    destruct (paginated_body_head b fuel tr fun_ bad Hserves) as (g' & Hfirst & _).
    apply consume_throw.
    now rewrite resume_gen_for, Hfirst, resume_yield_from, Hbad.
  - destruct fuel as [|fuel]; [lia|].
    destruct Hserves as (Hpage & marker & Hmarker & Htrue & Hrest).
    cbn [res_map] in Hitems.
    destruct (page_items key page) as [items|e'|] eqn:Hpi; try discriminate.
    destruct (res_map (page_items key) rest) as [itemss'|e'|] eqn:Hrm; try discriminate.
    destruct (paginated_body_head b fuel tr fun_ page Hpage) as (g' & Hfirst & Hnext).
    rewrite (consume_resume_at _
               (gen_seq (gen_of_list items)
                  (gen_for g' (fun response =>
                     yield_from_value (lift (getitem_str response key)))))
               _ (mkWorld b (tr ++ [EvCall (func fun_) (keywords fun_)]))).
    2:{ now rewrite resume_gen_for, Hfirst, resume_yield_from, Hpi. }
    rewrite consume_seq_of_list.
    rewrite (gen_for_resume _ _ _ _ (Hnext marker _ Hmarker)), Htrue.
    rewrite (IH fuel _ _ itemss' Hrest eq_refl Hbad ltac:(cbn in Hfuel; lia)).
    cbn [prefix_calls after_prefix]. rewrite Hmarker.
    now rewrite <- app_assoc.
Qed.

(** X9. A page the roles cannot be read from (no Roles key, or a value that
    is not iterable) ends the listing with the error of that read:
    [list(list_roles())] raises it, the pages after the bad one are not
    requested, and n good pages before it cost n+1 requests in all. *)
Theorem list_roles_bad_page
  (pages : list PyVal) (itemss : list (list PyVal)) (bad : PyVal) (e : exn)
  (fuel : nat) (w : World) :
  serves_prefix (boto w) (trace w) (boto_method "list_roles") pages
    (fun tr' fun' => boto w tr' (func fun') (keywords fun') = Returns bad) ->
  res_map (page_items "Roles") pages = Ok itemss ->
  page_items "Roles" bad = Raise e ->
  length pages < fuel ->
  exists w',
    consume (list_roles fuel) w = (Raise e, w')
    /\ since w w' = prefix_calls (boto_method "list_roles") pages
                    ++ [ev (after_prefix (boto_method "list_roles") pages)]
    /\ calls (since w w') = length pages + 1.
Proof.
  intros Hserves Hitems Hbad Hfuel. destruct w as [b tr]; cbn [boto trace] in *.
  eexists. split.
  - unfold list_roles. rewrite consume_gen_do. cbn [_paginated_request ret].
    eapply pages_flattened_until; eauto.
  - rewrite since_app. split; [reflexivity|].
    destruct (paginated_body_prefix b _ pages fuel tr _ Hserves ltac:(lia))
      as (_ & Hcalls & _).
    rewrite calls_app, Hcalls. reflexivity.
Qed.

(** ** The access analysis, for every remote *)

Lemma poll_loop_never_yields (fuel : nat) (job_id : PyVal) (w : World) :
  exists w',
    (exists e, resume (poll_loop fuel job_id) w = (Throw e, w'))
    \/ resume (poll_loop fuel job_id) w = (Starve, w').
Proof.
  destruct fuel as [|fuel].
  - exists w. right. reflexivity.
  - cbn [poll_loop gen_do resume].
    unfold bind, time_sleep. cbn [_request].
    destruct (_retried_call (S fuel) (details_request job_id) (log (EvSleep 5) w))
      as [[r|e|] w1].
    + exists w1. left. exists TypeError.
      unfold lift, py_list. destruct r; reflexivity.
    + exists w1. left. exists e. reflexivity.
    + exists w1. right. reflexivity.
Qed.

Lemma analysis_stops_before_yielding (fuel : nat) (arn : PyVal) (w : World) :
  exists w',
    (exists e, resume (get_last_accessed_details fuel arn) w = (Throw e, w'))
    \/ resume (get_last_accessed_details fuel arn) w = (Starve, w').
Proof.
  unfold get_last_accessed_details. cbn [gen_do resume].
  unfold bind. cbn [_request].
  destruct (_retried_call fuel _ w) as [[response|e|] w1].
  - unfold lift.
    destruct (getitem_str response "JobId") as [job_id|e|].
    + apply poll_loop_never_yields.
    + exists w1. left. exists e. reflexivity.
    + exists w1. right. reflexivity.
  - exists w1. left. exists e. reflexivity.
  - exists w1. right. reflexivity.
Qed.

Lemma analysis_is_never_read (fuel : nat) (arn : PyVal) (w w' : World)
  (items : list PyVal) :
  consume (get_last_accessed_details fuel arn) w <> (Ok items, w').
Proof.
  intros Hrun. rewrite consume_unfold in Hrun.
  destruct (analysis_stops_before_yielding fuel arn w) as (w1 & [(e & H) | H]);
    rewrite H in Hrun; discriminate.
Qed.

(** X10. [get_last_accessed_details] never yields anything, whatever the
    remote answers and however long it is allowed to run: the first element
    asked of it raises an error, or the operation is still retrying
    throttled requests.  In particular [list(...)] of it never returns. *)
Theorem get_last_accessed_details_never_yields
  (fuel : nat) (arn : PyVal) (w : World) :
  (exists w',
     (exists e, resume (get_last_accessed_details fuel arn) w = (Throw e, w'))
     \/ resume (get_last_accessed_details fuel arn) w = (Starve, w'))
  /\ forall items w', consume (get_last_accessed_details fuel arn) w <> (Ok items, w').
Proof.
  split.
  - apply analysis_stops_before_yielding.
  - intros items w'. apply analysis_is_never_read.
Qed.

(** X11. A submission that the remote refuses with an error other than the
    rate-limit one: the first element asked of [get_last_accessed_details]
    raises that error; the operation has sent the one request, and has
    neither slept nor polled. *)
Theorem analysis_submission_error
  (fuel : nat) (arn : PyVal) (w : World) (e : exn) :
  boto w (trace w) (func (submit_request arn)) (keywords (submit_request arn))
  = Raises e ->
  is_rate_limit e = false ->
  0 < fuel ->
  exists w',
    resume (get_last_accessed_details fuel arn) w = (Throw e, w')
    /\ since w w' = [ev (submit_request arn)].
Proof.
  intros Hsubmit Hkind Hfuel. destruct fuel as [|fuel]; [lia|].
  destruct w as [b tr]; cbn [boto trace] in *.
  exists (mkWorld b (tr ++ [ev (submit_request arn)])).
  rewrite since_app. split; [|reflexivity].
  unfold get_last_accessed_details. fold (submit_request arn).
  cbn [gen_do resume]. unfold bind at 1. cbn [_request _retried_call].
  unfold call, log, ev; cbn [boto trace]. rewrite Hsubmit.
  destruct e; cbn in Hkind |- *; try reflexivity. now rewrite Hkind.
Qed.

(** X12. A submission whose response has no JobId (or is not a dict): the
    first element asked of [get_last_accessed_details] raises the error of
    that subscript, KeyError or TypeError; the job is never polled and
    nothing is slept. *)
Theorem analysis_without_job_id
  (fuel : nat) (arn submitted : PyVal) (w : World) (e : exn) :
  boto w (trace w) (func (submit_request arn)) (keywords (submit_request arn))
  = Returns submitted ->
  getitem_str submitted "JobId" = Raise e ->
  0 < fuel ->
  exists w',
    resume (get_last_accessed_details fuel arn) w = (Throw e, w')
    /\ since w w' = [ev (submit_request arn)].
Proof.
  intros Hsubmit Hjob Hfuel. destruct fuel as [|fuel]; [lia|].
  destruct w as [b tr]; cbn [boto trace] in *.
  exists (mkWorld b (tr ++ [ev (submit_request arn)])).
  rewrite since_app. split; [|reflexivity].
  unfold get_last_accessed_details. fold (submit_request arn).
  cbn [gen_do resume]. unfold bind. cbn [_request _retried_call].
  unfold call, log, ev; cbn [boto trace]. rewrite Hsubmit.
  unfold lift. now rewrite Hjob.
Qed.

(** X13. The poll goes through the retry loop, and its first answer is the
    last thing the operation reads: when the job is submitted and the poll
    is throttled K times before the remote answers it, with any response at
    all, the first element asked of [get_last_accessed_details] raises
    TypeError after K+1 poll requests and K+1 sleeps of 5 (the one before
    the poll and one per throttle). *)
Theorem analysis_raises_at_first_answer
  (fuel K : nat) (arn submitted job_id polled : PyVal) (w : World) :
  boto w (trace w) (func (submit_request arn)) (keywords (submit_request arn))
  = Returns submitted ->
  getitem_str submitted "JobId" = Ok job_id ->
  (forall i, i < K ->
     boto w ((trace w ++ [ev (submit_request arn); EvSleep 5])
             ++ throttled (details_request job_id) i)
       (func (details_request job_id)) (keywords (details_request job_id))
     = Raises LimitExceeded) ->
  boto w ((trace w ++ [ev (submit_request arn); EvSleep 5])
          ++ throttled (details_request job_id) K)
    (func (details_request job_id)) (keywords (details_request job_id))
  = Returns polled ->
  K < fuel ->
  exists w',
    resume (get_last_accessed_details fuel arn) w = (Throw TypeError, w')
    /\ since w w' = [ev (submit_request arn); EvSleep 5]
                    ++ throttled (details_request job_id) K
                    ++ [ev (details_request job_id)]
    /\ calls (since w w') = K + 2
    /\ sleeps (since w w') = repeat 5%Z (K + 1).
Proof.
  intros Hsubmit Hjob Hthrottle Hpoll Hfuel. destruct fuel as [|fuel]; [lia|].
  destruct w as [b tr]; cbn [boto trace] in *.
  exists (mkWorld b (tr ++ [ev (submit_request arn); EvSleep 5]
                        ++ throttled (details_request job_id) K
                        ++ [ev (details_request job_id)])).
  rewrite since_app. split; [|split; [reflexivity|split]].
  - unfold get_last_accessed_details. fold (submit_request arn).
    cbn [gen_do resume]. unfold bind at 1. cbn [_request _retried_call].
    unfold call at 1; cbn [boto trace]. rewrite Hsubmit.
    unfold lift at 1. rewrite Hjob.
    cbn [poll_loop gen_do resume].
    unfold bind at 1. unfold time_sleep at 1. unfold bind at 1. cbn [_request].
    unfold log; cbn [boto trace].
    replace (S fuel) with (K + S (fuel - K)) at 1 by lia.
    rewrite <- (app_assoc tr). cbn [app]. unfold ev in *.
    rewrite (retried_call_skips_throttled _ b K _ _ Hthrottle).
    cbn [_retried_call]. unfold call at 1; cbn [boto trace]. rewrite Hpoll.
    rewrite list_has_no_str_subscript. unfold log; cbn [boto trace].
    now rewrite <- !app_assoc.
  - cbn [app]. unfold ev, calls. cbn [filter is_call length].
    fold (calls (throttled (details_request job_id) K
                   ++ [EvCall (func (details_request job_id))
                         (keywords (details_request job_id))])).
    rewrite calls_app, calls_throttled. cbn. lia.
  - cbn [app]. unfold ev. cbn [sleeps].
    rewrite sleeps_app, sleeps_throttled. cbn [sleeps]. rewrite app_nil_r.
    replace (K + 1) with (S K) by lia. reflexivity.
Qed.

(** ** Which version is selected *)








(** ** The reader over any client *)

(** X16. A role record without an Arn is noticed last: over any client,
    when the role, the inline documents, the attached policies, their
    latest versions and their documents have all been read and the role has
    no Arn (or is not a dict), [describe_role] raises the error of that
    subscript then; the access analysis of the client is not called. *)
Theorem describe_role_without_arn
  (client : Client) (role_name role : PyVal)
  (inline_policy_names attached_policies : Gen)
  (inline_policy_documents attached_policy_arns attached_policy_documents : list PyVal)
  (ids : list (PyVal * PyVal)) (e : exn)
  (w w1 w2 w3 w4 w5 w6 w7 : World) :
  client_get_role client role_name w = (Ok role, w1) ->
  client_list_inline_policies client role_name w1 = (Ok inline_policy_names, w2) ->
  comprehension inline_policy_names
    (fun pn => client_get_inline_policy_document client role_name pn) w2
  = (Ok inline_policy_documents, w3) ->
  client_list_attached_policies client role_name w3 = (Ok attached_policies, w4) ->
  comprehension attached_policies (fun item => lift (getitem_str item "PolicyArn")) w4
  = (Ok attached_policy_arns, w5) ->
  for_list attached_policy_arns
    (fun arn => version_id <- _get_latest_version_id client arn ;; ret (arn, version_id)) w5
  = (Ok ids, w6) ->
  for_list ids (fun args => client_get_policy_document client (fst args) (snd args)) w6
  = (Ok attached_policy_documents, w7) ->
  getitem_str role "Arn" = Raise e ->
  describe_role client role_name w = (Raise e, w7).
Proof.
  intros Hrole Hnames Hdocs Hattached Harns Hids Hadocs Harn.
  unfold describe_role.
  unfold bind at 1. rewrite Hrole.
  unfold bind at 1. rewrite Hnames.
  unfold bind at 1. rewrite Hdocs.
  unfold bind at 1. rewrite Hattached.
  unfold bind at 1. rewrite Harns.
  unfold bind at 1. rewrite Hids.
  unfold bind at 1. rewrite Hadocs.
  unfold bind at 1. unfold lift at 1. now rewrite Harn.
Qed.

(** What [describe_role] puts in LastAccessedDetails is what the access
    analysis of the client returned, in the call that ends it. *)
Lemma describe_role_details
  (client : Client) (role_name : PyVal) (profile : RoleProfile) (w w' : World) :
  describe_role client role_name w = (Ok profile, w') ->
  exists arn w1,
    client_get_last_accessed_details client arn w1
    = (Ok (LastAccessedDetails profile), w').
Proof.
  unfold describe_role, bind, lift, ret. intros H.
  repeat match type of H with
         | context [match ?x with _ => _ end] =>
             let E := fresh "E" in destruct x eqn:E; try discriminate
         end.
  inversion H; subst. cbn [LastAccessedDetails]. eauto.
Qed.

(** X17. Over a client whose access analysis is the generator of
    [AwsClient], every profile that [describe_role] returns has a
    LastAccessedDetails that cannot be read: in whatever world the caller
    asks it for its first element, it yields none; it raises an error, or
    is still retrying throttled requests. *)
Theorem profile_details_are_never_read
  (client : Client) (fuel : nat) (role_name : PyVal) (profile : RoleProfile)
  (w w' w_read : World) :
  (forall arn w0,
     client_get_last_accessed_details client arn w0
     = (Ok (get_last_accessed_details fuel arn), w0)) ->
  describe_role client role_name w = (Ok profile, w') ->
  exists w_end,
    (exists e, resume (LastAccessedDetails profile) w_read = (Throw e, w_end))
    \/ resume (LastAccessedDetails profile) w_read = (Starve, w_end).
Proof.
  intros Hlazy Hrun.
  destruct (describe_role_details client role_name profile w w' Hrun)
    as (arn & w1 & Hdetails).
  rewrite Hlazy in Hdetails. inversion Hdetails as [[Hgen Hw]].
  apply analysis_stops_before_yielding.
Qed.

(** X18. The operations that take an identifier and hand it to [_request]
    or [_paginated_request] as a keyword never reach the remote: fetching a
    role, listing its inline policies, fetching an inline document and
    fetching a version's document each raise TypeError and send no request,
    for every argument, remote and fuel; so does the selection of the
    latest version over this client. *)
Theorem identifier_operations_raise
  (fuel : nat) (role_name policy_name policy_arn version_id : PyVal) (w : World) :
  get_role fuel role_name w = (Raise TypeError, w)
  /\ consume (list_inline_policies fuel role_name) w = (Raise TypeError, w)
  /\ get_inline_policy_document fuel role_name policy_name w = (Raise TypeError, w)
  /\ get_policy_document fuel policy_arn version_id w = (Raise TypeError, w)
  /\ _get_latest_version_id (AwsClient fuel) policy_arn w = (Raise TypeError, w).
Proof. repeat split. Qed.

(** ** A cursor that never ends *)

Lemma paginated_body_stuck (b : Boto) (op : string) (page marker : PyVal) :
  (forall tr kw, b tr op kw = Returns page) ->
  dict_get page "Marker" = Ok marker ->
  truthy marker = true ->
  forall (fuel : nat) (tr : list Event) (kw : kwargs),
  exists evs,
    consume (_paginated_request_body fuel (Partial op kw)) (mkWorld b tr)
    = (Diverge, mkWorld b (tr ++ evs))
    /\ calls evs = fuel
    /\ sleeps evs = [].
Proof.
  intros Hpage Hmarker Htrue.
  induction fuel as [|fuel IH]; intros tr kw.
  - exists []. rewrite app_nil_r. repeat split.
  - destruct (paginated_body_first_page b fuel tr (Partial op kw) page marker
                (Hpage _ _) Hmarker Htrue) as (g' & Hfirst & Hnext).
    destruct (IH (tr ++ [EvCall op kw]) (kw_update kw [("Marker", marker)]))
      as (evs & Hrun & Hcalls & Hsleeps).
    exists (EvCall op kw :: evs).
    rewrite consume_unfold, Hfirst. cbn [func keywords].
    rewrite (consume_resume _ _ _ (Hnext _)).
    unfold partial; cbn [func keywords]. rewrite Hrun.
    rewrite <- app_assoc. repeat split.
    + unfold calls in *. cbn [filter is_call length]. now rewrite Hcalls.
    + exact Hsleeps.
Qed.

(** X19. The pagination does not notice a cursor that repeats: against a
    remote that answers every request of the operation with the same page,
    a page with a cursor, [list(_paginated_request(fun))] does not end;
    after n turns it has sent n requests without sleeping and is about to
    send the next. *)
Theorem paginated_request_repeated_cursor
  (fun_ : callable) (page marker : PyVal) (fuel : nat) (w : World) :
  (forall tr kw, boto w tr (func fun_) kw = Returns page) ->
  dict_get page "Marker" = Ok marker ->
  truthy marker = true ->
  exists w',
    (g <- _paginated_request fuel fun_ [] ;; consume g) w = (Diverge, w')
    /\ calls (since w w') = fuel
    /\ sleeps (since w w') = [].
Proof.
  intros Hpage Hmarker Htrue. destruct w as [b tr], fun_ as [op kw].
  cbn [boto trace func] in *.
  destruct (paginated_body_stuck b op page marker Hpage Hmarker Htrue fuel tr kw)
    as (evs & Hrun & Hcalls & Hsleeps).
  exists (mkWorld b (tr ++ evs)). rewrite since_app. repeat split; auto.
Qed.

(** ** Instances of the further theorems on the fixtures *)

Lemma retried_call_never_surfaces_rate_limit_witness :
  Ok Doubles.deploy_role <> Raise LimitExceeded
  /\ exists k,
       k < 3
       /\ boto (mkWorld (Doubles.throttling_remote 2 Doubles.deploy_role)
                  (throttled (boto_method "get_role") 2 ++ [EvCall "get_role" []]))
          = boto (mkWorld (Doubles.throttling_remote 2 Doubles.deploy_role) [])
       /\ since (mkWorld (Doubles.throttling_remote 2 Doubles.deploy_role) [])
            (mkWorld (Doubles.throttling_remote 2 Doubles.deploy_role)
               (throttled (boto_method "get_role") 2 ++ [EvCall "get_role" []]))
          = throttled (boto_method "get_role") k ++ [EvCall "get_role" []]
       /\ sleeps (since (mkWorld (Doubles.throttling_remote 2 Doubles.deploy_role) [])
                    (mkWorld (Doubles.throttling_remote 2 Doubles.deploy_role)
                       (throttled (boto_method "get_role") 2 ++ [EvCall "get_role" []])))
          = repeat 5%Z k.
Proof.
  apply (retried_call_never_surfaces_rate_limit (boto_method "get_role") 3
           (mkWorld (Doubles.throttling_remote 2 Doubles.deploy_role) [])
           (mkWorld (Doubles.throttling_remote 2 Doubles.deploy_role)
              (throttled (boto_method "get_role") 2 ++ [EvCall "get_role" []]))
           (Ok Doubles.deploy_role)).
  - reflexivity.
  - discriminate.
Defined.

Lemma retried_call_has_no_attempt_cap_witness :
  exists w',
    _retried_call 3 (boto_method "get_role") (mkWorld Fixtures.always_throttling [])
    = (Diverge, w')
    /\ since (mkWorld Fixtures.always_throttling []) w'
       = throttled (boto_method "get_role") 3
    /\ calls (since (mkWorld Fixtures.always_throttling []) w') = 3
    /\ sleeps (since (mkWorld Fixtures.always_throttling []) w') = repeat 5%Z 3.
Proof.
  apply (retried_call_has_no_attempt_cap (boto_method "get_role") 3
           (mkWorld Fixtures.always_throttling [])).
  intros i Hi. reflexivity.
Defined.

Lemma retried_call_error_after_throttles_witness :
  exists w',
    _retried_call 3 (boto_method "get_role") (mkWorld (Fixtures.throttle_then_deny 2) [])
    = (Raise (ClientError "AccessDenied"), w')
    /\ since (mkWorld (Fixtures.throttle_then_deny 2) []) w'
       = throttled (boto_method "get_role") 2 ++ [EvCall "get_role" []]
    /\ calls (since (mkWorld (Fixtures.throttle_then_deny 2) []) w') = 2 + 1
    /\ sleeps (since (mkWorld (Fixtures.throttle_then_deny 2) []) w') = repeat 5%Z 2.
Proof.
  apply (retried_call_error_after_throttles (boto_method "get_role") 2 3
           (mkWorld (Fixtures.throttle_then_deny 2) []) (ClientError "AccessDenied")).
  - intros i Hi. destruct i as [|[|i]]; [reflexivity | reflexivity | lia].
  - reflexivity.
  - reflexivity.
  - lia.
Defined.

Lemma paginated_request_survives_throttling_witness :
  exists w',
    (g <- _paginated_request 4 (boto_method "list_roles") [] ;; consume g)
      (mkWorld Fixtures.two_page_throttled [])
    = (Ok (map snd [(1, Doubles.role_page1); (1, Doubles.role_page2)]), w')
    /\ since (mkWorld Fixtures.two_page_throttled []) w'
       = throttled_page_calls (boto_method "list_roles")
           [(1, Doubles.role_page1); (1, Doubles.role_page2)]
    /\ calls (since (mkWorld Fixtures.two_page_throttled []) w')
       = length [(1, Doubles.role_page1); (1, Doubles.role_page2)]
         + total_throttles [(1, Doubles.role_page1); (1, Doubles.role_page2)]
    /\ sleeps (since (mkWorld Fixtures.two_page_throttled []) w')
       = repeat 5%Z (total_throttles [(1, Doubles.role_page1); (1, Doubles.role_page2)]).
Proof.
  apply (paginated_request_survives_throttling (boto_method "list_roles")
           [(1, Doubles.role_page1); (1, Doubles.role_page2)] 4
           (mkWorld Fixtures.two_page_throttled [])).
  - cbn [serves_throttled boto trace]. split.
    { intros i Hi. destruct i as [|i]; [reflexivity | lia]. }
    split; [reflexivity|]. exists (VStr "c1").
    split; [reflexivity|]. split; [reflexivity|]. split.
    { intros i Hi. destruct i as [|i]; [reflexivity | lia]. }
    split; [reflexivity|]. exists VNone. split; reflexivity.
  - cbn. lia.
Defined.

Lemma paginated_request_is_lazy_witness :
  exists w',
    (g <- _paginated_request 1 (boto_method "list_roles") [] ;;
     next_n (length [Doubles.role_page1]) g) (mkWorld Doubles.two_page_remote [])
    = (Ok [Doubles.role_page1], w')
    /\ since (mkWorld Doubles.two_page_remote []) w'
       = prefix_calls (boto_method "list_roles") [Doubles.role_page1]
    /\ calls (since (mkWorld Doubles.two_page_remote []) w')
       = length [Doubles.role_page1].
Proof.
  apply (paginated_request_is_lazy (boto_method "list_roles") [Doubles.role_page1] 1
           (mkWorld Doubles.two_page_remote [])).
  - cbn. split; [reflexivity|]. exists (VStr "c1"). repeat split.
  - cbn. lia.
Defined.

Lemma paginated_request_error_midway_witness :
  exists w',
    (g <- _paginated_request 2 (boto_method "list_roles") [] ;; consume g)
      (mkWorld Fixtures.page_then_deny [])
    = (Raise (ClientError "AccessDenied"), w')
    /\ since (mkWorld Fixtures.page_then_deny []) w'
       = prefix_calls (boto_method "list_roles") [Doubles.role_page1]
         ++ [ev (after_prefix (boto_method "list_roles") [Doubles.role_page1])]
    /\ calls (since (mkWorld Fixtures.page_then_deny []) w')
       = length [Doubles.role_page1] + 1
    /\ sleeps (since (mkWorld Fixtures.page_then_deny []) w') = [].
Proof.
  apply (paginated_request_error_midway (boto_method "list_roles")
           [Doubles.role_page1] (ClientError "AccessDenied") 2
           (mkWorld Fixtures.page_then_deny [])).
  - cbn. split; [reflexivity|]. exists (VStr "c1"). repeat split.
  - reflexivity.
  - cbn. lia.
Defined.

Lemma paginated_request_cursors_witness :
  exists w',
    (g <- _paginated_request 3 (boto_method "list_roles") [] ;; consume g)
      (mkWorld Fixtures.three_page_remote [])
    = (Ok [Fixtures.page_a; Fixtures.page_b; Fixtures.page_c], w')
    /\ since (mkWorld Fixtures.three_page_remote []) w'
       = EvCall "list_roles" []
         :: map (fun page => EvCall "list_roles" (kw_set "Marker" (marker_of page) []))
              (removelast [Fixtures.page_a; Fixtures.page_b; Fixtures.page_c]).
Proof.
  apply (paginated_request_cursors (boto_method "list_roles")
           [Fixtures.page_a; Fixtures.page_b; Fixtures.page_c] 3
           (mkWorld Fixtures.three_page_remote [])).
  - cbn. split; [reflexivity|]. exists (VStr "c1").
    split; [reflexivity|]. split; [reflexivity|].
    split; [reflexivity|]. exists (VStr "c2").
    split; [reflexivity|]. split; [reflexivity|].
    split; [reflexivity|]. exists VNone. split; reflexivity.
  - cbn. lia.
Defined.

Lemma list_roles_yields_all_roles_witness :
  exists w',
    consume (list_roles 2) (mkWorld Doubles.two_page_remote [])
    = (Ok (concat [[VStr "Admin"; VStr "Deploy"]; [VStr "Audit"]]), w')
    /\ since (mkWorld Doubles.two_page_remote []) w'
       = page_calls (boto_method "list_roles") [Doubles.role_page1; Doubles.role_page2]
    /\ calls (since (mkWorld Doubles.two_page_remote []) w')
       = length [Doubles.role_page1; Doubles.role_page2].
Proof.
  apply (list_roles_yields_all_roles [Doubles.role_page1; Doubles.role_page2]
           [[VStr "Admin"; VStr "Deploy"]; [VStr "Audit"]] 2
           (mkWorld Doubles.two_page_remote [])).
  - cbn. split; [reflexivity|]. exists (VStr "c1").
    split; [reflexivity|]. split; [reflexivity|].
    split; [reflexivity|]. exists VNone. split; reflexivity.
  - reflexivity.
  - cbn. lia.
Defined.

Lemma list_roles_bad_page_witness :
  exists w',
    consume (list_roles 2) (mkWorld Fixtures.page_then_bad_page [])
    = (Raise (KeyError "Roles"), w')
    /\ since (mkWorld Fixtures.page_then_bad_page []) w'
       = prefix_calls (boto_method "list_roles") [Doubles.role_page1]
         ++ [ev (after_prefix (boto_method "list_roles") [Doubles.role_page1])]
    /\ calls (since (mkWorld Fixtures.page_then_bad_page []) w')
       = length [Doubles.role_page1] + 1.
Proof.
  apply (list_roles_bad_page [Doubles.role_page1] [[VStr "Admin"; VStr "Deploy"]]
           Fixtures.page_without_roles (KeyError "Roles") 2
           (mkWorld Fixtures.page_then_bad_page [])).
  - cbn. split; [reflexivity|]. exists (VStr "c1"). repeat split.
  - reflexivity.
  - reflexivity.
  - cbn. lia.
Defined.

Lemma analysis_submission_error_witness :
  exists w',
    resume (get_last_accessed_details 1 Doubles.deploy_arn)
      (mkWorld Doubles.denying_remote [])
    = (Throw (ClientError "AccessDenied"), w')
    /\ since (mkWorld Doubles.denying_remote []) w'
       = [ev (submit_request Doubles.deploy_arn)].
Proof.
  apply (analysis_submission_error 1 Doubles.deploy_arn
           (mkWorld Doubles.denying_remote []) (ClientError "AccessDenied")).
  - reflexivity.
  - reflexivity.
  - lia.
Defined.

Lemma analysis_without_job_id_witness :
  exists w',
    resume (get_last_accessed_details 1 Doubles.deploy_arn)
      (mkWorld Fixtures.empty_remote [])
    = (Throw (KeyError "JobId"), w')
    /\ since (mkWorld Fixtures.empty_remote []) w'
       = [ev (submit_request Doubles.deploy_arn)].
Proof.
  apply (analysis_without_job_id 1 Doubles.deploy_arn (VDict [])
           (mkWorld Fixtures.empty_remote []) (KeyError "JobId")).
  - reflexivity.
  - reflexivity.
  - lia.
Defined.

Lemma analysis_raises_at_first_answer_witness :
  exists w',
    resume (get_last_accessed_details 2 Doubles.deploy_arn)
      (mkWorld Fixtures.throttled_poll_remote [])
    = (Throw TypeError, w')
    /\ since (mkWorld Fixtures.throttled_poll_remote []) w'
       = [ev (submit_request Doubles.deploy_arn); EvSleep 5]
         ++ throttled (details_request (VStr "job-1")) 1
         ++ [ev (details_request (VStr "job-1"))]
    /\ calls (since (mkWorld Fixtures.throttled_poll_remote []) w') = 1 + 2
    /\ sleeps (since (mkWorld Fixtures.throttled_poll_remote []) w')
       = repeat 5%Z (1 + 1).
Proof.
  apply (analysis_raises_at_first_answer 2 1 Doubles.deploy_arn
           (VDict [("JobId", VStr "job-1")]) (VStr "job-1")
           (VDict [("JobStatus", VStr "COMPLETED")])
           (mkWorld Fixtures.throttled_poll_remote [])).
  - reflexivity.
  - reflexivity.
  - intros i Hi. destruct i as [|i]; [reflexivity | lia].
  - reflexivity.
  - lia.
Defined.



Lemma describe_role_without_arn_witness :
  describe_role Fixtures.arnless_client (VStr "Deploy") (mkWorld Doubles.denying_remote [])
  = (Raise (KeyError "Arn"), mkWorld Doubles.denying_remote []).
Proof.
  apply (describe_role_without_arn Fixtures.arnless_client (VStr "Deploy")
           (VDict [("RoleName", VStr "Deploy")]) (gen_of_list []) (gen_of_list [])
           [] [] [] [] (KeyError "Arn")
           (mkWorld Doubles.denying_remote []) (mkWorld Doubles.denying_remote [])
           (mkWorld Doubles.denying_remote []) (mkWorld Doubles.denying_remote [])
           (mkWorld Doubles.denying_remote []) (mkWorld Doubles.denying_remote [])
           (mkWorld Doubles.denying_remote []) (mkWorld Doubles.denying_remote []));
    reflexivity.
Defined.

Lemma profile_details_are_never_read_witness :
  exists w_end,
    (exists e,
       resume (LastAccessedDetails
                 (mkRoleProfile Doubles.deploy_arn (VStr "Deploy") [] []
                    (get_last_accessed_details 3 Doubles.deploy_arn)))
         (mkWorld (Doubles.analysis_remote ["COMPLETED"]) [])
       = (Throw e, w_end))
    \/ resume (LastAccessedDetails
                 (mkRoleProfile Doubles.deploy_arn (VStr "Deploy") [] []
                    (get_last_accessed_details 3 Doubles.deploy_arn)))
         (mkWorld (Doubles.analysis_remote ["COMPLETED"]) [])
       = (Starve, w_end).
Proof.
  apply (profile_details_are_never_read (Doubles.lazy_client 3) 3 (VStr "Deploy")
           (mkRoleProfile Doubles.deploy_arn (VStr "Deploy") [] []
              (get_last_accessed_details 3 Doubles.deploy_arn))
           (mkWorld (Doubles.analysis_remote ["COMPLETED"]) [])
           (mkWorld (Doubles.analysis_remote ["COMPLETED"]) [])
           (mkWorld (Doubles.analysis_remote ["COMPLETED"]) [])).
  - intros arn w0. reflexivity.
  - reflexivity.
Defined.

Lemma paginated_request_repeated_cursor_witness :
  exists w',
    (g <- _paginated_request 3 (boto_method "list_roles") [] ;; consume g)
      (mkWorld Fixtures.stuck_remote [])
    = (Diverge, w')
    /\ calls (since (mkWorld Fixtures.stuck_remote []) w') = 3
    /\ sleeps (since (mkWorld Fixtures.stuck_remote []) w') = [].
Proof.
  apply (paginated_request_repeated_cursor (boto_method "list_roles")
           Doubles.role_page1 (VStr "c1") 3 (mkWorld Fixtures.stuck_remote [])).
  - intros tr kw. reflexivity.
  - reflexivity.
  - reflexivity.
Defined.
